(** * Service monitoring application: the three Flask handlers of [app/app.py]

    The program is a small Flask service with three read-only routes:
    [/] (home), [/health] (database probe through psycopg2) and [/info].
    The handlers are embedded as functions in a reader/state/exception monad:
    the reader part is the outside world of one invocation (process-wide
    configuration, the behaviour of the database server, the wall clock, the
    interpreter), the state part is what the database driver keeps between
    calls (which connections were opened and not yet closed by a call, and
    the log of driver calls), and the
    exception part is Python's [raise] / [try ... except Exception]. *)

From Stdlib Require Import ZArith Ascii String List Lia Bool.
From stdpp Require Import gmap strings list fin_maps.

Local Open Scope string_scope.
Local Open Scope Z_scope.

(** ** Python values and built-ins used by the handlers *)

Module Py.

(** An exception object caught by [except Exception]: its class name and
    the text [str(e)] evaluates to. Everything psycopg2 raises derives from
    [psycopg2.Error], a subclass of [Exception], and so do the errors the
    interpreter raises on value operations ([TypeError], [IndexError],
    [AttributeError]). *)
Record exc : Type := Exc { exc_class : string; exc_msg : string }.

(** [str(e)] *)
Definition str (e : exc) : string := exc_msg e.

(** Outcome of evaluating a Python expression or block. *)
Inductive result (A : Type) : Type :=
| Returned (a : A)
| Raised (e : exc).
Arguments Returned {A} a.
Arguments Raised {A} e.

(** A column value of a fetched row, as psycopg2 adapts it: SQL NULL is
    [None], a text column is a [str]. *)
Inductive sqlval : Type :=
| SqlNull
| SqlText (s : string).

(** [row[0]] where [row] is what [fetchone()] returned: [None] when the
    result set is exhausted, otherwise a tuple of column values. *)
Definition getitem0 (row : option (list sqlval)) : result sqlval :=
  match row with
  | None => Raised (Exc "TypeError" "'NoneType' object is not subscriptable")
  | Some [] => Raised (Exc "IndexError" "tuple index out of range")
  | Some (v :: _) => Returned v
  end.

(** Code points that [str.split()] without arguments treats as separators
    (the characters of the first 256 code points for which [str.isspace]
    holds): TAB, LF, VT, FF, CR, FS, GS, RS, US, SPACE, NEL and NBSP. *)
Definition isspace (c : ascii) : bool :=
  let n := N_of_ascii c in
  ((9 <=? n) && (n <=? 13) || (28 <=? n) && (n <=? 32)
   || (n =? 133) || (n =? 160))%N.

(** The scanning loop of [str.split()]: [tok] is the token being
    collected, [s] the rest of the input. Runs of separators produce no
    empty tokens, and leading and trailing separators are dropped. *)
Fixpoint split_go (tok : string) (s : string) : list string :=
  match s with
  | EmptyString =>
      match tok with EmptyString => [] | _ => [tok] end
  | String c s' =>
      if isspace c then
        match tok with
        | EmptyString => split_go EmptyString s'
        | _ => tok :: split_go EmptyString s'
        end
      else split_go (tok +:+ String c EmptyString) s'
  end.

(** [s.split()] *)
Definition split (s : string) : list string := split_go EmptyString s.

(** [v.split()] on a fetched column value. *)
Definition split_val (v : sqlval) : result (list string) :=
  match v with
  | SqlText s => Returned (split s)
  | SqlNull =>
      Raised (Exc "AttributeError" "'NoneType' object has no attribute 'split'")
  end.

(** [l[0:n]]: slicing clips to the length of the list and never raises. *)
Definition slice0 {A : Type} (n : nat) (l : list A) : list A := firstn n l.

(** *** [datetime] and [isoformat] *)

(** A naive [datetime] object, as [datetime.now()] returns it. *)
Record datetime : Type := Datetime {
  year : Z; month : Z; day : Z;
  hour : Z; minute : Z; second : Z; microsecond : Z
}.

(** The ranges the [datetime] class enforces on its fields. *)
Definition datetime_valid (d : datetime) : Prop :=
  1 <= year d <= 9999 /\ 1 <= month d <= 12 /\ 1 <= day d <= 31 /\
  0 <= hour d < 24 /\ 0 <= minute d < 60 /\ 0 <= second d < 60 /\
  0 <= microsecond d < 1000000.

Definition digit (d : Z) : ascii := ascii_of_N (Z.to_N (48 + d)).

Definition is_digit (c : ascii) : bool :=
  let n := N_of_ascii c in ((48 <=? n) && (n <=? 57))%N.

(** Decimal digits of a non-negative integer, most significant first,
    pushed in front of [acc]. The fuel bounds the number of digits. *)
Fixpoint decimal_go (fuel : nat) (n : Z) (acc : string) : string :=
  match fuel with
  | O => acc
  | S f =>
      let acc' := String (digit (n mod 10)) acc in
      if n / 10 =? 0 then acc' else decimal_go f (n / 10) acc'
  end.

(** [str(n)] for [n >= 0]; a number has no more decimal digits than bits. *)
Definition decimal (n : Z) : string :=
  decimal_go (S (Z.to_nat (Z.log2 n))) n EmptyString.

Fixpoint zeros (k : nat) (s : string) : string :=
  match k with
  | O => s
  | S k' => String "0"%char (zeros k' s)
  end.

(** ["%0<w>d" % n] for [n >= 0]: the decimal digits, padded on the left
    with zeros up to width [w]; longer numbers are not truncated. *)
Definition format_d (w : nat) (n : Z) : string :=
  let s := decimal n in zeros (w - String.length s) s.

(** Exactly [w] digits of [n], least significant taken first: what
    ["%0<w>d"] prints when [n] fits in [w] digits (lemma [format_d_fixed]). *)
Fixpoint fixed (w : nat) (n : Z) (acc : string) : string :=
  match w with
  | O => acc
  | S w' => fixed w' (n / 10) (String (digit (n mod 10)) acc)
  end.

(** [d.isoformat()] for a naive datetime: the fractional part is printed
    only when the microsecond field is not zero. *)
Definition isoformat (d : datetime) : string :=
  format_d 4 (year d) +:+ "-" +:+ format_d 2 (month d) +:+ "-" +:+
  format_d 2 (day d) +:+ "T" +:+ format_d 2 (hour d) +:+ ":" +:+
  format_d 2 (minute d) +:+ ":" +:+ format_d 2 (second d) +:+
  (if microsecond d =? 0 then EmptyString
   else "." +:+ format_d 6 (microsecond d)).

(** *** The lexical shape of an ISO-8601 date-time *)

Inductive shape : Type :=
| Dig
| Lit (c : ascii).

Fixpoint matches (p : list shape) (s : string) : bool :=
  match p, s with
  | [], EmptyString => true
  | Dig :: p', String c s' => is_digit c && matches p' s'
  | Lit a :: p', String c s' => Ascii.eqb a c && matches p' s'
  | _, _ => false
  end.

(** [YYYY-MM-DDTHH:MM:SS] *)
Definition iso_seconds : list shape :=
  [Dig; Dig; Dig; Dig; Lit "-"; Dig; Dig; Lit "-"; Dig; Dig; Lit "T";
   Dig; Dig; Lit ":"; Dig; Dig; Lit ":"; Dig; Dig]%char.

(** [YYYY-MM-DDTHH:MM:SS.ffffff] *)
Definition iso_micros : list shape :=
  iso_seconds ++ [Lit "."; Dig; Dig; Dig; Dig; Dig; Dig]%char.

Definition is_iso8601 (s : string) : bool :=
  matches iso_seconds s || matches iso_micros s.

(** [os.environ.get(key, default)] *)
Definition environ_get (environ : gmap string string) (key dflt : string) : string :=
  match environ !! key with
  | Some v => v
  | None => dflt
  end.

End Py.

(** ** Flask: what a view function returns *)

Module Flask.

(** A JSON value in a response body: the handlers only put strings and
    lists of strings into their dictionaries. *)
Inductive json : Type :=
| JStr (s : string)
| JArr (l : list string).

(** The value a view returns: the [Response] built by [jsonify(dict)],
    alone or in a tuple with an explicit status code. *)
Inductive view_rv : Type :=
| Rv (body : gmap string json)
| RvStatus (body : gmap string json) (code : Z).

(** Flask answers 200 when the view gives no status. *)
Definition status_code (r : view_rv) : Z :=
  match r with
  | Rv _ => 200
  | RvStatus _ c => c
  end.

Definition body (r : view_rv) : gmap string json :=
  match r with
  | Rv b => b
  | RvStatus b _ => b
  end.

End Flask.

(** ** The world of one invocation and the handler monad *)

Module Psycopg2.

(** How the database answers during one invocation. [None] in an
    [option Py.exc] means that the call succeeds. *)
Record server : Type := Server {
  (** [psycopg2.connect(host=, database=, user=, password=)] *)
  on_connect : string -> string -> string -> string -> option Py.exc;
  (** [conn.cursor()] *)
  on_cursor : option Py.exc;
  (** [cur.execute(sql)] *)
  on_execute : string -> option Py.exc;
  (** [cur.fetchone()]: raises, or gives [None] or a row *)
  on_fetchone : Py.result (option (list Py.sqlval))
}.

(** A call into the driver, as recorded in the log. *)
Inductive event : Type :=
| EvConnectFailed
| EvConnect (c : nat)
| EvCursor (c : nat)
| EvExecute (c : nat) (sql : string)
| EvFetchone (c : nat)
| EvCursorClose (c : nat)
| EvConnClose (c : nat).

(** What the driver keeps across calls and across invocations: the next
    connection handle, the connections that were opened and on which
    [close()] has not been called, and the log. Only calls are tracked: what
    the interpreter does to a connection object once nothing refers to it
    any more (finalization closes it) is outside the model, so a handle in
    [open_conns] is a connection not closed by a call, which need not be a
    connection that is still open. *)
Record state : Type := State {
  next_id : nat;
  open_conns : gset nat;
  log : list event
}.

End Psycopg2.

Module Config.

(** The module-level constants of [app.py], read once at import. *)
Record t : Type := Make {
  DB_HOST : string;
  DB_NAME : string;
  DB_USER : string;
  DB_PASS : string
}.

Definition load (environ : gmap string string) : t :=
  {| DB_HOST := Py.environ_get environ "DB_HOST" "localhost";
     DB_NAME := Py.environ_get environ "DB_NAME" "testdb";
     DB_USER := Py.environ_get environ "DB_USER" "testuser";
     DB_PASS := Py.environ_get environ "DB_PASS" "testpass" |}.

End Config.

(** The interpreter and library versions actually running the process. *)
Record runtime : Type := Runtime {
  rt_python_version : string;
  rt_flask_version : string
}.

Record world : Type := World {
  w_cfg : Config.t;
  w_db : Psycopg2.server;
  w_now : Py.datetime;
  w_runtime : runtime
}.

(** A computation reads the world, updates the driver state, and either
    returns a value or raises. *)
Definition M (A : Type) : Type :=
  world -> Psycopg2.state -> Py.result A * Psycopg2.state.

Definition ret {A : Type} (a : A) : M A :=
  fun _ s => (Py.Returned a, s).

Definition bind {A B : Type} (m : M A) (k : A -> M B) : M B :=
  fun w s =>
    match m w s with
    | (Py.Returned a, s') => k a w s'
    | (Py.Raised e, s') => (Py.Raised e, s')
    end.

(** [try: body  except Exception as e: handler(e)] *)
Definition try_except {A : Type} (body : M A) (handler : Py.exc -> M A) : M A :=
  fun w s =>
    match body w s with
    | (Py.Returned a, s') => (Py.Returned a, s')
    | (Py.Raised e, s') => handler e w s'
    end.

(** Lift the outcome of a pure Python operation. *)
Definition lift {A : Type} (r : Py.result A) : M A :=
  fun _ s => (r, s).

(** The module-level constants, as the handlers see them. *)
Definition globals : M Config.t := fun w s => (Py.Returned (w_cfg w), s).

(** [datetime.now()] *)
Definition datetime_now : M Py.datetime := fun w s => (Py.Returned (w_now w), s).

Declare Scope py_scope.
Delimit Scope py_scope with py.
Notation "'let*' x := m 'in' k" := (bind m (fun x => k))
  (at level 10, x name, m at level 100, k at level 200) : py_scope.
Notation "'exec' m 'in' k" := (bind m (fun _ => k))
  (at level 10, m at level 100, k at level 200) : py_scope.
Local Open Scope py_scope.

(** ** The driver calls the handlers make *)

Module Db.
Import Psycopg2.

Definition record (ev : event) (s : state) : state :=
  {| next_id := next_id s; open_conns := open_conns s; log := log s ++ [ev] |}.

(** [psycopg2.connect(...)]: a new connection with a handle never used
    before, or the error of the server. *)
Definition connect (host database user password : string) : M nat :=
  fun w s =>
    match on_connect (w_db w) host database user password with
    | Some e => (Py.Raised e, record EvConnectFailed s)
    | None =>
        let c := next_id s in
        (Py.Returned c,
         {| next_id := S c;
            open_conns := {[c]} ∪ open_conns s;
            log := log s ++ [EvConnect c] |})
    end.

(** A client-side cursor; it is identified by its connection. *)
Inductive cursor_obj : Type := Cursor (c : nat).

(** [conn.cursor()] *)
Definition cursor (c : nat) : M cursor_obj :=
  fun w s =>
    match on_cursor (w_db w) with
    | Some e => (Py.Raised e, record (EvCursor c) s)
    | None => (Py.Returned (Cursor c), record (EvCursor c) s)
    end.

(** [cur.execute(sql)] *)
Definition execute (cur : cursor_obj) (sql : string) : M unit :=
  fun w s =>
    let '(Cursor c) := cur in
    match on_execute (w_db w) sql with
    | Some e => (Py.Raised e, record (EvExecute c sql) s)
    | None => (Py.Returned tt, record (EvExecute c sql) s)
    end.

(** [cur.fetchone()] *)
Definition fetchone (cur : cursor_obj) : M (option (list Py.sqlval)) :=
  fun w s =>
    let '(Cursor c) := cur in
    (on_fetchone (w_db w), record (EvFetchone c) s).

(** [cur.close()] on a client-side cursor: no server round trip, it only
    marks the cursor closed. *)
Definition cursor_close (cur : cursor_obj) : M unit :=
  fun w s =>
    let '(Cursor c) := cur in
    (Py.Returned tt, record (EvCursorClose c) s).

(** [conn.close()]: the connection is released by the call. *)
Definition close (c : nat) : M unit :=
  fun w s =>
    (Py.Returned tt,
     {| next_id := next_id s;
        open_conns := open_conns s ∖ {[c]};
        log := log s ++ [EvConnClose c] |}).

End Db.

(** ** The application *)

Import Flask.

(** Try to connect to PostgreSQL: the connection, or [None]. *)
Definition get_db_connection : M (option nat) :=
  try_except
    (let* cfg := globals in
     let* conn := Db.connect (Config.DB_HOST cfg) (Config.DB_NAME cfg)
                             (Config.DB_USER cfg) (Config.DB_PASS cfg) in
     ret (Some conn))
    (fun e => ret None).

(** [GET /] *)
Definition home : M view_rv :=
  let* now := datetime_now in
  ret (Rv {[ "service" := JStr "Python test Application";
             "message" := JStr "Hello from Ibrahim!";
             "timestamp" := JStr (Py.isoformat now);
             "status" := JStr "running" ]}).

(** [GET /health]: checks database connectivity. A connection object is
    always true in [if conn:], [None] is false. *)
Definition health : M view_rv :=
  let* conn := get_db_connection in
  match conn with
  | Some c =>
      try_except
        (let* cur := Db.cursor c in
         exec Db.execute cur "SELECT version();" in
         let* row := Db.fetchone cur in
         let* db_version := lift (Py.getitem0 row) in
         exec Db.cursor_close cur in
         exec Db.close c in
         let* tokens := lift (Py.split_val db_version) in
         let* now := datetime_now in
         ret (RvStatus {[ "status" := JStr "healthy";
                          "database" := JStr "connected";
                          "db_version" := JArr (Py.slice0 2 tokens);
                          "timestamp" := JStr (Py.isoformat now) ]} 200))
        (fun e =>
         let* now := datetime_now in
         ret (RvStatus {[ "status" := JStr "degraded";
                          "database" := JStr "error";
                          "error" := JStr (Py.str e);
                          "timestamp" := JStr (Py.isoformat now) ]} 500))
  | None =>
      let* now := datetime_now in
      ret (RvStatus {[ "status" := JStr "unhealthy";
                       "database" := JStr "disconnected";
                       "timestamp" := JStr (Py.isoformat now) ]} 503)
  end.

(** [GET /info] *)
Definition info : M view_rv :=
  let* cfg := globals in
  ret (Rv {[ "python_version" := JStr "3.12.3";
             "flask_version" := JStr "installed";
             "database_host" := JStr (Config.DB_HOST cfg);
             "database_name" := JStr (Config.DB_NAME cfg);
             "endpoints" := JArr [ "/ - Homepage";
                                   "/health - Health check";
                                   "/info - This page" ] ]}).

(** ** The three answers of [/health], for the statements below *)

Definition healthy_rv (tokens : list string) (now : Py.datetime) : view_rv :=
  RvStatus {[ "status" := JStr "healthy";
              "database" := JStr "connected";
              "db_version" := JArr tokens;
              "timestamp" := JStr (Py.isoformat now) ]} 200.

Definition degraded_rv (e : Py.exc) (now : Py.datetime) : view_rv :=
  RvStatus {[ "status" := JStr "degraded";
              "database" := JStr "error";
              "error" := JStr (Py.str e);
              "timestamp" := JStr (Py.isoformat now) ]} 500.

Definition unhealthy_rv (now : Py.datetime) : view_rv :=
  RvStatus {[ "status" := JStr "unhealthy";
              "database" := JStr "disconnected";
              "timestamp" := JStr (Py.isoformat now) ]} 503.

(** The body without its timestamp. *)
Definition untimed (r : view_rv) : gmap string json :=
  delete "timestamp" (body r).

(** ** Situations of one invocation, read off the world *)

(** The connection attempt with the configured parameters succeeds. *)
Definition connects (w : world) : Prop :=
  Psycopg2.on_connect (w_db w)
    (Config.DB_HOST (w_cfg w)) (Config.DB_NAME (w_cfg w))
    (Config.DB_USER (w_cfg w)) (Config.DB_PASS (w_cfg w)) = None.

(** The connection attempt fails with [e]. *)
Definition connect_fails (w : world) (e : Py.exc) : Prop :=
  Psycopg2.on_connect (w_db w)
    (Config.DB_HOST (w_cfg w)) (Config.DB_NAME (w_cfg w))
    (Config.DB_USER (w_cfg w)) (Config.DB_PASS (w_cfg w)) = Some e.

(** The cursor is created and the statement executes without error. *)
Definition executes (w : world) : Prop :=
  Psycopg2.on_cursor (w_db w) = None /\
  Psycopg2.on_execute (w_db w) "SELECT version();" = None.

(** The verification query succeeds and its row starts with the text [v]. *)
Definition query_returns (w : world) (v : string) : Prop :=
  executes w /\
  exists rest, Psycopg2.on_fetchone (w_db w) = Py.Returned (Some (Py.SqlText v :: rest)).

(** The verification query fails with [e]: at the cursor, at [execute], or
    at [fetchone]. *)
Inductive query_fails (w : world) (e : Py.exc) : Prop :=
| fails_at_cursor :
    Psycopg2.on_cursor (w_db w) = Some e -> query_fails w e
| fails_at_execute :
    Psycopg2.on_cursor (w_db w) = None ->
    Psycopg2.on_execute (w_db w) "SELECT version();" = Some e ->
    query_fails w e
| fails_at_fetchone :
    executes w ->
    Psycopg2.on_fetchone (w_db w) = Py.Raised e ->
    query_fails w e.

(** The query executes but [fetchone] has no row to give. *)
Definition no_row (w : world) : Prop :=
  executes w /\ Psycopg2.on_fetchone (w_db w) = Py.Returned None.

(** A JSON detail that carries something. *)
Definition json_nonempty (j : json) : Prop :=
  match j with
  | JStr s => s <> EmptyString
  | JArr l => l <> []
  end.

(** The characters of a string. *)
Fixpoint chars (s : string) : list ascii :=
  match s with
  | EmptyString => []
  | String c s' => c :: chars s'
  end.

(** The driver calls an invocation added to the log of [s]. *)
Definition new_events (s s' : Psycopg2.state) : list Psycopg2.event :=
  drop (length (Psycopg2.log s)) (Psycopg2.log s').

(** The connection an event is about, if any. *)
Definition event_conn (ev : Psycopg2.event) : option nat :=
  match ev with
  | Psycopg2.EvConnectFailed => None
  | Psycopg2.EvConnect c | Psycopg2.EvCursor c | Psycopg2.EvExecute c _
  | Psycopg2.EvFetchone c | Psycopg2.EvCursorClose c
  | Psycopg2.EvConnClose c => Some c
  end.

Definition is_query_event (ev : Psycopg2.event) : bool :=
  match ev with
  | Psycopg2.EvCursor _ | Psycopg2.EvExecute _ _ | Psycopg2.EvFetchone _ => true
  | _ => false
  end.

(** The connection handle [c] occurs in the driver state: it is open, or a
    logged call was about it. *)
Definition mentions (c : nat) (s : Psycopg2.state) : Prop :=
  c ∈ Psycopg2.open_conns s \/
  exists ev, In ev (Psycopg2.log s) /\ event_conn ev = Some c.

(** Handles are handed out in increasing order: every handle that occurs
    is below the next one. *)
Definition state_wf (s : Psycopg2.state) : Prop :=
  forall c, mentions c s -> (c < Psycopg2.next_id s)%nat.

(** From [s] to [s'] one connection attempt was made, and when it succeeded
    the handle is new and every further driver call is about it. *)
Definition own_connection (s s' : Psycopg2.state) : Prop :=
  (new_events s s' = [Psycopg2.EvConnectFailed] /\
   Psycopg2.next_id s' = Psycopg2.next_id s) \/
  (exists evs,
     new_events s s' = Psycopg2.EvConnect (Psycopg2.next_id s) :: evs /\
     Psycopg2.next_id s' = S (Psycopg2.next_id s) /\
     ~ mentions (Psycopg2.next_id s) s /\
     Forall (fun ev => event_conn ev = Some (Psycopg2.next_id s) /\
                       ev <> Psycopg2.EvConnect (Psycopg2.next_id s)) evs).

(** *** Sample worlds *)

Definition sample_now : Py.datetime := Py.Datetime 2024 5 17 9 3 7 0.

Definition sample_runtime : runtime := Runtime "3.11.4" "3.0.0".

Definition initial_state : Psycopg2.state := Psycopg2.State 0 ∅ [].

(** A server that accepts the connection and answers the version query
    with [v]. *)
Definition server_version (v : string) : Psycopg2.server :=
  {| Psycopg2.on_connect := fun _ _ _ _ => None;
     Psycopg2.on_cursor := None;
     Psycopg2.on_execute := fun _ => None;
     Psycopg2.on_fetchone := Py.Returned (Some [Py.SqlText v]) |}.

(** A server that accepts the connection and rejects every statement
    with [e]. *)
Definition server_rejecting (e : Py.exc) : Psycopg2.server :=
  {| Psycopg2.on_connect := fun _ _ _ _ => None;
     Psycopg2.on_cursor := None;
     Psycopg2.on_execute := fun _ => Some e;
     Psycopg2.on_fetchone := Py.Returned None |}.

(** A server whose result set is empty. *)
Definition server_no_row : Psycopg2.server :=
  {| Psycopg2.on_connect := fun _ _ _ _ => None;
     Psycopg2.on_cursor := None;
     Psycopg2.on_execute := fun _ => None;
     Psycopg2.on_fetchone := Py.Returned None |}.

(** No server listens at the configured host. *)
Definition server_down (e : Py.exc) : Psycopg2.server :=
  {| Psycopg2.on_connect := fun _ _ _ _ => Some e;
     Psycopg2.on_cursor := None;
     Psycopg2.on_execute := fun _ => None;
     Psycopg2.on_fetchone := Py.Returned None |}.

Definition sample_world (db : Psycopg2.server) : world :=
  World (Config.load ∅) db sample_now sample_runtime.

Definition permission_denied : Py.exc :=
  Py.Exc "InsufficientPrivilege" "permission denied for function version".

Definition connection_refused : Py.exc :=
  Py.Exc "OperationalError" "connection to server at localhost, port 5432 failed: Connection refused".

(** ** Start-up, routes and a run of requests *)


(** The three [@app.route] registrations. *)
Inductive route : Type :=
| RHome
| RHealth
| RInfo.

Definition rule (r : route) : string :=
  match r with
  | RHome => "/"
  | RHealth => "/health"
  | RInfo => "/info"
  end.

Definition view (r : route) : M view_rv :=
  match r with
  | RHome => home
  | RHealth => health
  | RInfo => info
  end.

Definition is_health (r : route) : bool :=
  match r with
  | RHealth => true
  | _ => false
  end.

(** A request as the process meets it: the route it is dispatched to, how
    the database behaves while it is handled, and the clock reading. *)
Definition request : Type := route * Psycopg2.server * Py.datetime.

(** Requests handled one after the other by one process: the configuration
    and the runtime are those of the process, the driver state is handed
    from one request to the next. *)
Fixpoint serve (cfg : Config.t) (rt : runtime) (reqs : list request)
         (s : Psycopg2.state) : list (Py.result view_rv) * Psycopg2.state :=
  match reqs with
  | [] => ([], s)
  | (r, db, now) :: rest =>
      let '(res, s1) := view r (World cfg db now rt) s in
      let '(out, s2) := serve cfg rt rest s1 in
      (res :: out, s2)
  end.

(** The connection opens and the [try] block of [health] is left before
    the call of [conn.close()]: the cursor, the statement or the fetch
    raises, or there is no row, or the row has no column. *)
Definition skips_close (cfg : Config.t) (db : Psycopg2.server) : bool :=
  match Psycopg2.on_connect db (Config.DB_HOST cfg) (Config.DB_NAME cfg)
                            (Config.DB_USER cfg) (Config.DB_PASS cfg) with
  | Some _ => false
  | None =>
      match Psycopg2.on_cursor db with
      | Some _ => true
      | None =>
          match Psycopg2.on_execute db "SELECT version();" with
          | Some _ => true
          | None =>
              match Psycopg2.on_fetchone db with
              | Py.Returned (Some (_ :: _)) => false
              | _ => true
              end
          end
      end
  end.

(** The driver calls of a [/health] invocation that runs its [try] block to
    the end, on connection [c]. *)
Definition health_protocol (c : nat) : list Psycopg2.event :=
  [ Psycopg2.EvConnect c; Psycopg2.EvCursor c;
    Psycopg2.EvExecute c "SELECT version();"; Psycopg2.EvFetchone c;
    Psycopg2.EvCursorClose c; Psycopg2.EvConnClose c ].

(** A string of separators only, and a token: non-empty and free of
    separators. *)
Definition blank (s : string) : Prop :=
  Forall (fun c => Py.isspace c = true) (chars s).

Definition token (s : string) : Prop :=
  s <> EmptyString /\ Forall (fun c => Py.isspace c = false) (chars s).

(** The rest of a string after a token: nothing, or something that starts
    with a separator. *)
Definition token_end (s : string) : Prop :=
  match s with
  | EmptyString => True
  | String c _ => Py.isspace c = true
  end.

(** A server that answers the version query with a NULL column. *)
Definition server_null_version : Psycopg2.server :=
  {| Psycopg2.on_connect := fun _ _ _ _ => None;
     Psycopg2.on_cursor := None;
     Psycopg2.on_execute := fun _ => None;
     Psycopg2.on_fetchone := Py.Returned (Some [Py.SqlNull]) |}.


(** ** Python built-ins: examples and lemmas *)

Example split_version :
  Py.split "PostgreSQL 14.5 (Ubuntu 14.5-1) on x86_64-pc-linux-gnu"
  = ["PostgreSQL"; "14.5"; "(Ubuntu"; "14.5-1)"; "on"; "x86_64-pc-linux-gnu"].
Proof. reflexivity. Qed.

Example split_blank : Py.split "   " = [].
Proof. reflexivity. Qed.

Example split_runs : Py.split "  a   b " = ["a"; "b"].
Proof. reflexivity. Qed.

Example isoformat_whole_second : Py.isoformat sample_now = "2024-05-17T09:03:07".
Proof. reflexivity. Qed.

Example isoformat_fraction :
  Py.isoformat (Py.Datetime 2024 12 31 23 59 59 1234) = "2024-12-31T23:59:59.001234".
Proof. reflexivity. Qed.

Example format_d_wide : Py.format_d 2 123 = "123".
Proof. reflexivity. Qed.

Section SplitFacts.

Lemma append_snoc_not_empty (tok : string) (c : ascii) :
  tok +:+ String c EmptyString <> EmptyString.
Proof. destruct tok; discriminate. Qed.

Lemma chars_append (a b : string) : chars (a +:+ b) = (chars a ++ chars b)%list.
Proof. induction a as [|c a IH]; simpl; [reflexivity | now rewrite IH]. Qed.

(** The scan yields no token exactly when nothing was being collected and
    only separators remain. *)
Lemma split_go_nil (s tok : string) :
  Py.split_go tok s = [] <->
  tok = EmptyString /\ Forall (fun c => Py.isspace c = true) (chars s).
Proof.
  revert tok. induction s as [|c s IH]; intros tok; simpl.
  - destruct tok; split; intros H.
    + split; [reflexivity | constructor].
    + reflexivity.
    + discriminate.
    + destruct H; discriminate.
  - destruct (Py.isspace c) eqn:Hc.
    + destruct tok.
      * rewrite IH. split; intros [_ H]; split; try reflexivity.
        -- constructor; assumption.
        -- inversion H; assumption.
      * split; [discriminate | intros [H _]; discriminate].
    + rewrite IH. split.
      * intros [H _]. now apply append_snoc_not_empty in H.
      * intros [_ H]. inversion H; subst. congruence.
Qed.

Lemma split_nil (s : string) :
  Py.split s = [] <-> Forall (fun c => Py.isspace c = true) (chars s).
Proof.
  unfold Py.split. rewrite split_go_nil. intuition.
Qed.

(** Every token is non-empty and free of separators. *)
Lemma split_go_tokens (s tok t : string) :
  Forall (fun c => Py.isspace c = false) (chars tok) ->
  In t (Py.split_go tok s) ->
  t <> EmptyString /\ Forall (fun c => Py.isspace c = false) (chars t).
Proof.
  revert tok. induction s as [|c s IH]; intros tok Htok Hin; simpl in Hin.
  - destruct tok; [contradiction |].
    destruct Hin as [<- | []]. split; [discriminate | assumption].
  - destruct (Py.isspace c) eqn:Hc.
    + destruct tok.
      * apply (IH EmptyString); [constructor | assumption].
      * destruct Hin as [<- | Hin].
        -- split; [discriminate | assumption].
        -- apply (IH EmptyString); [constructor | assumption].
    + apply (IH (tok +:+ String c EmptyString)); [| assumption].
      rewrite chars_append. apply Forall_app. split; [assumption |].
      simpl. constructor; [assumption | constructor].
Qed.

Lemma split_tokens (s t : string) :
  In t (Py.split s) ->
  t <> EmptyString /\ Forall (fun c => Py.isspace c = false) (chars t).
Proof. apply split_go_tokens. constructor. Qed.

(** The two-token prefix is empty exactly for a blank version string. *)
Lemma slice2_split_nonempty (v : string) :
  Py.slice0 2 (Py.split v) <> [] <->
  exists c, In c (chars v) /\ Py.isspace c = false.
Proof.
  assert (Hs : Py.slice0 2 (Py.split v) = [] <-> Py.split v = []).
  { unfold Py.slice0. destruct (Py.split v) as [|a [|b l]]; simpl;
      split; intros H; congruence. }
  rewrite Hs, split_nil. split.
  - intros H. induction (chars v) as [|c l IH].
    + exfalso. apply H. constructor.
    + destruct (Py.isspace c) eqn:Hc.
      * destruct IH as [c' [Hin Hc']].
        -- intros Hl. apply H. constructor; assumption.
        -- exists c'. split; [right; assumption | assumption].
      * exists c. split; [left; reflexivity | assumption].
  - intros [c [Hin Hc]] Hall.
    rewrite Forall_forall in Hall.
    specialize (Hall c). rewrite list_elem_of_In in Hall.
    specialize (Hall Hin). congruence.
Qed.

Lemma slice2_length {A : Type} (l : list A) : (length (Py.slice0 2 l) <= 2)%nat.
Proof. unfold Py.slice0. rewrite length_take. lia. Qed.

End SplitFacts.

Section IsoformatFacts.

Lemma digit_is_digit (d : Z) : 0 <= d < 10 -> Py.is_digit (Py.digit d) = true.
Proof.
  intros H.
  assert (Hd : d = 0 \/ d = 1 \/ d = 2 \/ d = 3 \/ d = 4 \/ d = 5 \/
               d = 6 \/ d = 7 \/ d = 8 \/ d = 9) by lia.
  repeat (destruct Hd as [-> | Hd]; [reflexivity |]). subst d. reflexivity.
Qed.

Lemma digit_mod10 (n : Z) : Py.is_digit (Py.digit (n mod 10)) = true.
Proof. apply digit_is_digit. apply Z.mod_pos_bound. lia. Qed.

Lemma zeros_shift (k : nat) (s : string) :
  Py.zeros k (String "0"%char s) = String "0"%char (Py.zeros k s).
Proof. induction k as [|k IH]; simpl; [reflexivity | now rewrite IH]. Qed.

Lemma fixed_zero (j : nat) (acc : string) : Py.fixed j 0 acc = Py.zeros j acc.
Proof.
  revert acc. induction j as [|j IH]; intros acc; simpl; [reflexivity |].
  rewrite Zdiv_0_l, Zmod_0_l, IH. apply zeros_shift.
Qed.

Lemma fixed_length (k : nat) (n : Z) (acc : string) :
  String.length (Py.fixed k n acc) = (k + String.length acc)%nat.
Proof.
  revert n acc. induction k as [|k IH]; intros n acc; simpl; [reflexivity |].
  rewrite IH. simpl. lia.
Qed.

(** The [k] low digits first, then the rest. *)
Lemma fixed_add (k j : nat) (n : Z) (acc : string) :
  0 <= n ->
  Py.fixed (k + j) n acc = Py.fixed j (n / 10 ^ Z.of_nat k) (Py.fixed k n acc).
Proof.
  revert n acc. induction k as [|k IH]; intros n acc Hn.
  - simpl. now rewrite Z.div_1_r.
  - change (Py.fixed (S k + j) n acc)
      with (Py.fixed (k + j) (n / 10) (String (Py.digit (n mod 10)) acc)).
    rewrite IH by (apply Z.div_pos; lia).
    change (Py.fixed (S k) n acc)
      with (Py.fixed k (n / 10) (String (Py.digit (n mod 10)) acc)).
    f_equal.
    rewrite Nat2Z.inj_succ, Z.pow_succ_r by lia.
    rewrite Z.div_div by lia. reflexivity.
Qed.

(** With enough fuel the digit loop prints the [k] digits of [n], where
    [k] is its number of decimal digits. *)
Lemma decimal_go_fixed (fuel : nat) :
  forall (n : Z) (acc : string),
    (1 <= fuel)%nat -> 0 <= n < 2 ^ Z.of_nat fuel ->
    exists k : nat,
      (1 <= k)%nat /\ n < 10 ^ Z.of_nat k /\
      (k = 1%nat \/ 10 ^ (Z.of_nat k - 1) <= n) /\
      Py.decimal_go fuel n acc = Py.fixed k n acc.
Proof.
  induction fuel as [|f IH]; intros n acc Hf Hn; [lia |].
  simpl Py.decimal_go.
  pose proof (Z.div_mod n 10 ltac:(lia)) as Hdm.
  pose proof (Z.mod_pos_bound n 10 ltac:(lia)) as Hm.
  destruct (n / 10 =? 0) eqn:Hq.
  - apply Z.eqb_eq in Hq.
    exists 1%nat. repeat split; [lia | lia | left; reflexivity].
  - apply Z.eqb_neq in Hq.
    assert (Hdiv : 0 <= n / 10 < 2 ^ Z.of_nat f).
    { split; [apply Z.div_pos; lia |].
      rewrite Nat2Z.inj_succ, Z.pow_succ_r in Hn by lia.
      apply Z.div_lt_upper_bound; lia. }
    assert (Hf1 : (1 <= f)%nat).
    { destruct f; [simpl in Hdiv; lia | lia]. }
    destruct (IH (n / 10) (String (Py.digit (n mod 10)) acc) Hf1 Hdiv)
      as [k [Hk [Hub [Hlb Heq]]]].
    exists (S k). rewrite Heq.
    repeat split.
    + lia.
    + rewrite Nat2Z.inj_succ, Z.pow_succ_r by lia. lia.
    + right. replace (Z.of_nat (S k) - 1) with (Z.of_nat k) by lia.
      destruct Hlb as [-> | Hlb]; [simpl; lia |].
      replace (Z.of_nat k) with (Z.succ (Z.of_nat k - 1)) by lia.
      rewrite Z.pow_succ_r by lia. lia.
Qed.

Lemma decimal_fixed (n : Z) :
  0 <= n ->
  exists k : nat,
    (1 <= k)%nat /\ n < 10 ^ Z.of_nat k /\
    (k = 1%nat \/ 10 ^ (Z.of_nat k - 1) <= n) /\
    Py.decimal n = Py.fixed k n EmptyString.
Proof.
  intros Hn. unfold Py.decimal. apply decimal_go_fixed; [lia |].
  split; [assumption |].
  rewrite Nat2Z.inj_succ, Z2Nat.id by apply Z.log2_nonneg.
  destruct (Z.eq_dec n 0) as [-> | Hne]; [reflexivity |].
  apply Z.log2_spec. lia.
Qed.

(** Within its width, ["%0<w>d"] prints exactly [w] digits. *)
Lemma format_d_fixed (w : nat) (n : Z) :
  (1 <= w)%nat -> 0 <= n < 10 ^ Z.of_nat w ->
  Py.format_d w n = Py.fixed w n EmptyString.
Proof.
  intros Hw [Hn Hlt]. unfold Py.format_d.
  destruct (decimal_fixed n Hn) as [k [Hk [Hub [Hlb Heq]]]].
  rewrite Heq, fixed_length. simpl String.length.
  assert (Hkw : (k <= w)%nat).
  { destruct Hlb as [-> | Hlb]; [assumption |].
    assert (Hp : 10 ^ (Z.of_nat k - 1) < 10 ^ Z.of_nat w) by lia.
    apply Z.pow_lt_mono_r_iff in Hp; lia. }
  replace (w - (k + 0))%nat with (w - k)%nat by lia.
  rewrite <- fixed_zero.
  replace 0 with (n / 10 ^ Z.of_nat k) at 1 by (apply Z.div_small; lia).
  rewrite <- fixed_add by assumption.
  f_equal. lia.
Qed.

End IsoformatFacts.

Section IsoformatShape.

Local Ltac width_ok := first [ lia | simpl; lia ].

(** [isoformat] of a datetime whose fields are in range has the lexical
    shape of an ISO-8601 date-time. *)
Lemma isoformat_is_iso8601 (d : Py.datetime) :
  Py.datetime_valid d -> Py.is_iso8601 (Py.isoformat d) = true.
Proof.
  intros (Hy & Hmo & Hd & Hh & Hmi & Hs & Hus).
  unfold Py.isoformat, Py.is_iso8601.
  rewrite (format_d_fixed 4 (Py.year d)) by width_ok.
  rewrite (format_d_fixed 2 (Py.month d)) by width_ok.
  rewrite (format_d_fixed 2 (Py.day d)) by width_ok.
  rewrite (format_d_fixed 2 (Py.hour d)) by width_ok.
  rewrite (format_d_fixed 2 (Py.minute d)) by width_ok.
  rewrite (format_d_fixed 2 (Py.second d)) by width_ok.
  destruct (Py.microsecond d =? 0).
  - cbv beta iota zeta delta
      [String.append Py.fixed Py.matches Py.iso_seconds Py.iso_micros app].
    rewrite !digit_mod10. reflexivity.
  - rewrite (format_d_fixed 6 (Py.microsecond d)) by width_ok.
    apply orb_true_iff. right.
    cbv beta iota zeta delta
      [String.append Py.fixed Py.matches Py.iso_seconds Py.iso_micros app].
    rewrite !digit_mod10. reflexivity.
Qed.

End IsoformatShape.

(** ** Running [/health]: one lemma per path *)

Section HealthPaths.
Import Psycopg2.

Variables (w : world) (s : state).

Abbreviation n := (next_id s).

Local Ltac run :=
  unfold health, get_db_connection, try_except, bind, ret, lift, globals,
    datetime_now, Db.connect, Db.cursor, Db.execute, Db.fetchone,
    Db.cursor_close, Db.close, Db.record.

Lemma get_db_connection_some :
  connects w ->
  get_db_connection w s =
    (Py.Returned (Some n),
     {| next_id := S n; open_conns := {[n]} ∪ open_conns s;
        log := log s ++ [EvConnect n] |}).
Proof.
  unfold connects. intros H.
  unfold get_db_connection, try_except, bind, ret, globals, Db.connect.
  rewrite H. reflexivity.
Qed.

Lemma get_db_connection_none (e : Py.exc) :
  connect_fails w e ->
  get_db_connection w s = (Py.Returned None, Db.record EvConnectFailed s).
Proof.
  unfold connect_fails. intros H.
  unfold get_db_connection, try_except, bind, ret, globals, Db.connect.
  rewrite H. reflexivity.
Qed.

(** Connection refused: 503, and the only driver call is the attempt. *)
Lemma health_unhealthy (e : Py.exc) :
  connect_fails w e ->
  health w s = (Py.Returned (unhealthy_rv (w_now w)),
                {| next_id := n; open_conns := open_conns s;
                   log := log s ++ [EvConnectFailed] |}).
Proof.
  unfold connect_fails. intros H. run. rewrite H. reflexivity.
Qed.

(** The whole [try] block runs: 200, and the connection is closed. *)
Lemma health_healthy (v : string) :
  connects w -> query_returns w v ->
  health w s =
    (Py.Returned (healthy_rv (Py.slice0 2 (Py.split v)) (w_now w)),
     {| next_id := S n;
        open_conns := ({[n]} ∪ open_conns s) ∖ {[n]};
        log := log s ++ [EvConnect n; EvCursor n;
                         EvExecute n "SELECT version();"; EvFetchone n;
                         EvCursorClose n; EvConnClose n] |}).
Proof.
  unfold connects, query_returns, executes.
  intros Hc [[Hcur Hex] [rest Hf]]. run.
  rewrite Hc, Hcur, Hex, Hf. simpl.
  rewrite <- !app_assoc. reflexivity.
Qed.

(** The query fails: 500 with [str(e)], and [conn.close()] is not
    reached. *)
Lemma health_degraded (e : Py.exc) :
  connects w -> query_fails w e ->
  exists evs,
    health w s =
      (Py.Returned (degraded_rv e (w_now w)),
       {| next_id := S n;
          open_conns := {[n]} ∪ open_conns s;
          log := log s ++ EvConnect n :: evs |}) /\
    Forall (fun ev => is_query_event ev = true /\ event_conn ev = Some n) evs.
Proof.
  unfold connects. intros Hc Hq.
  destruct Hq as [Hcur | Hcur Hex | [Hcur Hex] Hf].
  - exists [EvCursor n]. split.
    + run. rewrite Hc, Hcur. simpl. rewrite <- !app_assoc. reflexivity.
    + repeat constructor.
  - exists [EvCursor n; EvExecute n "SELECT version();"]. split.
    + run. rewrite Hc, Hcur, Hex. simpl. rewrite <- !app_assoc. reflexivity.
    + repeat constructor.
  - exists [EvCursor n; EvExecute n "SELECT version();"; EvFetchone n]. split.
    + run. rewrite Hc, Hcur, Hex, Hf. simpl. rewrite <- !app_assoc. reflexivity.
    + repeat constructor.
Qed.

(** No row: [None[0]] raises inside the [try] block. *)
Lemma health_no_row :
  connects w -> no_row w ->
  health w s =
    (Py.Returned
       (degraded_rv (Py.Exc "TypeError" "'NoneType' object is not subscriptable")
                    (w_now w)),
     {| next_id := S n;
        open_conns := {[n]} ∪ open_conns s;
        log := log s ++ [EvConnect n; EvCursor n;
                         EvExecute n "SELECT version();"; EvFetchone n] |}).
Proof.
  unfold connects, no_row, executes. intros Hc [[Hcur Hex] Hf]. run.
  rewrite Hc, Hcur, Hex, Hf. simpl. rewrite <- !app_assoc. reflexivity.
Qed.

(** Whatever the world does, the handler returns one of its three
    answers. *)
Lemma health_returns :
  exists r s',
    health w s = (Py.Returned r, s') /\
    ((exists tokens, r = healthy_rv tokens (w_now w)) \/
     (exists e, r = degraded_rv e (w_now w)) \/
     r = unhealthy_rv (w_now w)).
Proof.
  run.
  destruct (on_connect (w_db w) _ _ _ _) as [e|];
    [do 2 eexists; split; [reflexivity | right; right; reflexivity] |].
  destruct (on_cursor (w_db w)) as [e|];
    [do 2 eexists; split; [reflexivity | right; left; eexists; reflexivity] |].
  destruct (on_execute (w_db w) _) as [e|];
    [do 2 eexists; split; [reflexivity | right; left; eexists; reflexivity] |].
  destruct (on_fetchone (w_db w)) as [[[|[|v] rest]|]|e].
  - exists (degraded_rv (Py.Exc "IndexError" "tuple index out of range") (w_now w)).
    eexists. split; [reflexivity | right; left; eexists; reflexivity].
  - exists (degraded_rv
              (Py.Exc "AttributeError" "'NoneType' object has no attribute 'split'")
              (w_now w)).
    eexists. split; [reflexivity | right; left; eexists; reflexivity].
  - exists (healthy_rv (Py.slice0 2 (Py.split v)) (w_now w)).
    eexists. split; [reflexivity | left; eexists; reflexivity].
  - exists (degraded_rv
              (Py.Exc "TypeError" "'NoneType' object is not subscriptable")
              (w_now w)).
    eexists. split; [reflexivity | right; left; eexists; reflexivity].
  - exists (degraded_rv e (w_now w)).
    eexists. split; [reflexivity | right; left; eexists; reflexivity].
Qed.

End HealthPaths.

(** ** The driver state across invocations *)

Section DriverState.
Import Psycopg2.

Lemma new_events_app (s : state) (nid : nat) (oc : gset nat) (evs : list event) :
  new_events s {| next_id := nid; open_conns := oc; log := log s ++ evs |} = evs.
Proof. unfold new_events. simpl. apply drop_app_length. Qed.

Lemma state_wf_fresh (s : state) : state_wf s -> ~ mentions (next_id s) s.
Proof. intros Hwf Hm. apply Hwf in Hm. lia. Qed.

(** A failed attempt changes nothing but the log. *)
Lemma failed_attempt_step (s : state) :
  state_wf s ->
  let s' := {| next_id := next_id s; open_conns := open_conns s;
               log := log s ++ [EvConnectFailed] |} in
  own_connection s s' /\ state_wf s'.
Proof.
  intros Hwf s'. split.
  - left. split; [apply new_events_app | reflexivity].
  - intros c [Hc | [ev [Hin Hev]]]; simpl in *.
    + apply Hwf. left. assumption.
    + apply in_app_or in Hin. destruct Hin as [Hin | [<- | []]].
      * apply Hwf. right. exists ev. split; assumption.
      * discriminate.
Qed.

(** A successful attempt takes the next handle; whatever is then done on
    that connection keeps the handles in order. *)
Lemma opened_connection_step (s : state) (oc : gset nat) (evs : list event) :
  state_wf s ->
  oc ⊆ {[next_id s]} ∪ open_conns s ->
  Forall (fun ev => event_conn ev = Some (next_id s) /\
                    ev <> EvConnect (next_id s)) evs ->
  let s' := {| next_id := S (next_id s); open_conns := oc;
               log := log s ++ EvConnect (next_id s) :: evs |} in
  own_connection s s' /\ state_wf s'.
Proof.
  intros Hwf Hoc Hevs s'. split.
  - right. exists evs. repeat split.
    + apply new_events_app.
    + apply state_wf_fresh. assumption.
    + assumption.
  - intros c [Hc | [ev [Hin Hev]]]; simpl in *.
    + apply Hoc in Hc. apply elem_of_union in Hc. destruct Hc as [Hc | Hc].
      * apply elem_of_singleton in Hc. lia.
      * assert (c < next_id s)%nat by (apply Hwf; left; assumption). lia.
    + apply in_app_or in Hin. destruct Hin as [Hin | [<- | Hin]].
      * assert (c < next_id s)%nat
          by (apply Hwf; right; exists ev; split; assumption).
        lia.
      * simpl in Hev. injection Hev as <-. lia.
      * rewrite Forall_forall in Hevs. apply list_elem_of_In in Hin.
        destruct (Hevs ev Hin) as [Hc _]. rewrite Hc in Hev.
        injection Hev as <-. lia.
Qed.

Local Ltac still_ours :=
  first [ reflexivity | apply subseteq_difference_l; reflexivity ].

Local Ltac about_conn :=
  repeat (constructor; [split; [reflexivity | discriminate] |]);
  constructor.

(** Every invocation of [/health] makes exactly one connection attempt,
    on a handle of its own, and keeps the handles in order. *)
Lemma health_own_connection (w : world) (s : state) :
  state_wf s ->
  own_connection s (snd (health w s)) /\ state_wf (snd (health w s)).
Proof.
  intros Hwf.
  unfold health, get_db_connection, try_except, bind, ret, lift, globals,
    datetime_now, Db.connect, Db.cursor, Db.execute, Db.fetchone,
    Db.cursor_close, Db.close, Db.record.
  destruct (on_connect (w_db w) _ _ _ _) as [e|];
    [simpl; apply failed_attempt_step; assumption |].
  destruct (on_cursor (w_db w)) as [e|];
    [simpl; rewrite <- !app_assoc; simpl;
     apply opened_connection_step; [assumption | still_ours | about_conn] |].
  destruct (on_execute (w_db w) _) as [e|];
    [simpl; rewrite <- !app_assoc; simpl;
     apply opened_connection_step; [assumption | still_ours | about_conn] |].
  destruct (on_fetchone (w_db w)) as [[[|[|v] rest]|]|e];
    simpl; rewrite <- !app_assoc; simpl;
    (apply opened_connection_step; [assumption | still_ours | about_conn]).
Qed.

(** The answer does not read the driver state. *)
Lemma health_result_state_independent (w : world) (s1 s2 : state) :
  fst (health w s1) = fst (health w s2).
Proof.
  unfold health, get_db_connection, try_except, bind, ret, lift, globals,
    datetime_now, Db.connect, Db.cursor, Db.execute, Db.fetchone,
    Db.cursor_close, Db.close, Db.record.
  destruct (on_connect (w_db w) _ _ _ _) as [e|]; [reflexivity |].
  destruct (on_cursor (w_db w)) as [e|]; [reflexivity |].
  destruct (on_execute (w_db w) _) as [e|]; [reflexivity |].
  destruct (on_fetchone (w_db w)) as [[[|[|v] rest]|]|e]; reflexivity.
Qed.

(** The clock only shows in the timestamp. *)
Lemma health_result_clock (cfg : Config.t) (db : server) (rt : runtime)
      (now1 now2 : Py.datetime) (s : state) :
  exists r1 r2,
    fst (health (World cfg db now1 rt) s) = Py.Returned r1 /\
    fst (health (World cfg db now2 rt) s) = Py.Returned r2 /\
    status_code r1 = status_code r2 /\
    untimed r1 = untimed r2.
Proof.
  unfold health, get_db_connection, try_except, bind, ret, lift, globals,
    datetime_now, Db.connect, Db.cursor, Db.execute, Db.fetchone,
    Db.cursor_close, Db.close, Db.record.
  cbv beta iota delta [w_db w_cfg w_now w_runtime].
  destruct (on_connect db _ _ _ _) as [e|];
    [do 2 eexists; repeat split; reflexivity |].
  destruct (on_cursor db) as [e|];
    [do 2 eexists; repeat split; reflexivity |].
  destruct (on_execute db _) as [e|];
    [do 2 eexists; repeat split; reflexivity |].
  destruct (on_fetchone db) as [[[|[|v] rest]|]|e];
    do 2 eexists; repeat split; reflexivity.
Qed.

End DriverState.

(** ** The documented scenarios *)

Example scenario_defaults_no_database :
  fst (health (sample_world (server_down connection_refused)) initial_state)
  = Py.Returned (unhealthy_rv sample_now).
Proof. reflexivity. Qed.

Example scenario_info_db_host :
  exists r,
    fst (info (World (Config.load {[ "DB_HOST" := "db1" ]})
                     (server_down connection_refused) sample_now sample_runtime)
              initial_state) = Py.Returned r /\
    body r !! "database_host" = Some (JStr "db1") /\
    body r !! "database_name" = Some (JStr "testdb").
Proof. eexists. repeat split; reflexivity. Qed.

Example scenario_healthy :
  fst (health (sample_world (server_version "PostgreSQL 14.5 on x86_64-pc-linux-gnu"))
              initial_state)
  = Py.Returned (healthy_rv ["PostgreSQL"; "14.5"] sample_now).
Proof. reflexivity. Qed.

(** ** The call of [conn.close()] *)

Section Release.
Import Psycopg2.

(** When the whole [try] block runs, the handler calls [conn.close()] on
    the connection it opened. *)
Lemma health_success_closes (w : world) (s : state) (v : string) :
  connects w -> query_returns w v ->
  In (EvConnClose (next_id s)) (new_events s (snd (health w s))).
Proof.
  intros Hc Hq. rewrite (health_healthy w s v Hc Hq). simpl.
  rewrite new_events_app. simpl. tauto.
Qed.

(** When the query fails, the [except] branch answers without calling
    [conn.close()]. *)
Lemma health_failure_skips_close (w : world) (s : state) (e : Py.exc) :
  connects w -> query_fails w e ->
  ~ In (EvConnClose (next_id s)) (new_events s (snd (health w s))).
Proof.
  intros Hc Hq. destruct (health_degraded w s e Hc Hq) as [evs [Heq Hevs]].
  rewrite Heq. simpl.
  rewrite new_events_app. intros [Habs | Hin]; [discriminate |].
  rewrite Forall_forall in Hevs. apply list_elem_of_In in Hin.
  destruct (Hevs _ Hin) as [Hq' _]. discriminate.
Qed.

(** C1. The claim is that after a successful open the handler releases
    the connection before it returns, on every exit path. At a server that
    accepts the connection and rejects the statement, the handler answers
    500 and returns without having called [conn.close()]: all it asked of
    the driver is to connect, to create a cursor and to execute. *)
Theorem health_rejected_query_skips_close :
  let w := sample_world (server_rejecting permission_denied) in
  connects w /\ query_fails w permission_denied /\
  exists s',
    health w initial_state
      = (Py.Returned (degraded_rv permission_denied sample_now), s') /\
    log s' = [EvConnect 0; EvCursor 0; EvExecute 0 "SELECT version();"] /\
    ~ In (EvConnClose 0) (log s').
Proof.
  split; [reflexivity |].
  split; [apply fails_at_execute; reflexivity |].
  eexists. split; [reflexivity |]. simpl. split; [reflexivity |].
  intros [H | [H | [H | []]]]; discriminate.
Qed.

End Release.

(** ** The answers of [/health] *)

Section HealthAnswers.
Import Psycopg2.

(** C2, as stated, fails. The claim promises a non-empty version detail
    whenever the connection opens and the verification query succeeds; a
    server whose version text is empty makes the query succeed and the
    handler answer 200 with the empty list as [db_version]. *)
Lemma health_version_detail_may_be_empty :
  ~ (forall (w : world) (s : state) (v : string),
       connects w -> query_returns w v ->
       exists r s' d,
         health w s = (Py.Returned r, s') /\
         status_code r = 200 /\
         body r !! "status" = Some (JStr "healthy") /\
         body r !! "database" = Some (JStr "connected") /\
         body r !! "db_version" = Some d /\
         d = JArr (Py.slice0 2 (Py.split v)) /\
         json_nonempty d).
Proof.
  intros H.
  destruct (H (sample_world (server_version "")) initial_state "")
    as (r & s' & d & _ & _ & _ & _ & _ & Hd & Hne).
  - reflexivity.
  - split; [split; reflexivity | exists []; reflexivity].
  - subst d. apply Hne. reflexivity.
Qed.

(** C2, amended. When the connection opens and the verification query
    succeeds with version text [v], the handler answers 200 with
    status=healthy, database=connected and, as [db_version], the list of
    the first two whitespace-delimited tokens of [v] (fewer when [v] has
    fewer); there is no error field, and the detail is non-empty exactly
    when [v] has a character that is not whitespace. *)
Theorem health_healthy_response (w : world) (s : state) (v : string) :
  connects w -> query_returns w v ->
  exists r s',
    health w s = (Py.Returned r, s') /\
    status_code r = 200 /\
    body r !! "status" = Some (JStr "healthy") /\
    body r !! "database" = Some (JStr "connected") /\
    body r !! "db_version" = Some (JArr (Py.slice0 2 (Py.split v))) /\
    body r !! "error" = None /\
    (length (Py.slice0 2 (Py.split v)) <= 2)%nat /\
    (json_nonempty (JArr (Py.slice0 2 (Py.split v))) <->
     exists c, In c (chars v) /\ Py.isspace c = false).
Proof.
  intros Hc Hq. do 2 eexists.
  split; [apply (health_healthy w s v Hc Hq) |].
  repeat (split; [reflexivity |]).
  split; [apply slice2_length |].
  apply slice2_split_nonempty.
Qed.

Lemma health_healthy_response_witness :
  let w := sample_world (server_version "PostgreSQL 14.5 on x86_64-pc-linux-gnu") in
  connects w /\
  query_returns w "PostgreSQL 14.5 on x86_64-pc-linux-gnu" /\
  exists r s',
    health w initial_state = (Py.Returned r, s') /\
    status_code r = 200 /\
    body r !! "db_version" = Some (JArr ["PostgreSQL"; "14.5"]).
Proof.
  intros w.
  assert (Hc : connects w) by reflexivity.
  assert (Hq : query_returns w "PostgreSQL 14.5 on x86_64-pc-linux-gnu")
    by (split; [split; reflexivity | exists []; reflexivity]).
  split; [exact Hc |]. split; [exact Hq |].
  destruct (health_healthy_response w initial_state _ Hc Hq)
    as (r & s' & Hrun & Hst & _ & _ & Hv & _).
  exists r, s'. repeat split; assumption.
Defined.



End HealthAnswers.

Section HealthFailures.
Import Psycopg2.

(** C4. When the connection attempt fails, for whatever reason [e], the
    handler answers 503 with status=unhealthy and database=disconnected;
    the body has exactly the fields status, database and timestamp (no
    version, no error detail); the only driver call of the invocation is
    the failed attempt, so no cursor is created and no query is executed,
    and no connection is left open. *)
Theorem health_unhealthy_response (w : world) (s : state) (e : Py.exc) :
  connect_fails w e ->
  exists r s',
    health w s = (Py.Returned r, s') /\
    status_code r = 503 /\
    body r !! "status" = Some (JStr "unhealthy") /\
    body r !! "database" = Some (JStr "disconnected") /\
    body r !! "db_version" = None /\
    body r !! "error" = None /\
    dom (body r) = ({[ "status"; "database"; "timestamp" ]} : gset string) /\
    new_events s s' = [EvConnectFailed] /\
    Forall (fun ev => is_query_event ev = false) (new_events s s') /\
    open_conns s' = open_conns s.
Proof.
  intros Hf. do 2 eexists.
  split; [apply (health_unhealthy w s e Hf) |].
  repeat (split; [reflexivity |]).
  rewrite new_events_app.
  split; [reflexivity |].
  split; [repeat constructor | reflexivity].
Qed.

Lemma health_unhealthy_response_witness :
  let w := sample_world (server_down connection_refused) in
  connect_fails w connection_refused /\
  exists r s',
    health w initial_state = (Py.Returned r, s') /\
    status_code r = 503 /\
    new_events initial_state s' = [EvConnectFailed].
Proof.
  intros w.
  assert (Hf : connect_fails w connection_refused) by reflexivity.
  split; [exact Hf |].
  destruct (health_unhealthy_response w initial_state _ Hf)
    as (r & s' & Hrun & Hst & _ & _ & _ & _ & _ & Hev & _).
  exists r, s'. repeat split; assumption.
Defined.

(** C5. Whatever the connection attempt and the verification query do
    (succeed, raise any exception, return no row, return a malformed row),
    the handler does not raise: it returns a response whose status is 200,
    500 or 503 and whose body has the fields status, database and
    timestamp. *)
Theorem health_never_raises (w : world) (s : state) :
  (forall e s', health w s <> (Py.Raised e, s')) /\
  exists r s',
    health w s = (Py.Returned r, s') /\
    (status_code r = 200 \/ status_code r = 500 \/ status_code r = 503) /\
    is_Some (body r !! "status") /\
    is_Some (body r !! "database") /\
    body r !! "timestamp" = Some (JStr (Py.isoformat (w_now w))).
Proof.
  destruct (health_returns w s) as (r & s' & Hrun & Hr).
  split; [intros e s'' Habs; rewrite Hrun in Habs; discriminate |].
  exists r, s'. split; [exact Hrun |].
  destruct Hr as [[tokens ->] | [[e ->] | ->]].
  - split; [left; reflexivity |]. repeat split; eexists; reflexivity.
  - split; [right; left; reflexivity |]. repeat split; eexists; reflexivity.
  - split; [right; right; reflexivity |]. repeat split; eexists; reflexivity.
Qed.

(** C9. When the connection opens and the query executes but [fetchone]
    gives no row, indexing the missing row raises inside the [try] block
    and is handled like a query failure: the handler answers 500 with
    status=degraded and database=error (not healthy), the error detail
    being the message of that [TypeError]. *)
Theorem health_no_row_is_degraded (w : world) (s : state) :
  connects w -> no_row w ->
  exists r s',
    health w s = (Py.Returned r, s') /\
    status_code r = 500 /\
    body r !! "status" = Some (JStr "degraded") /\
    body r !! "database" = Some (JStr "error") /\
    body r !! "error" = Some (JStr "'NoneType' object is not subscriptable") /\
    body r !! "db_version" = None.
Proof.
  intros Hc Hn. do 2 eexists.
  split; [apply (health_no_row w s Hc Hn) |].
  repeat split; reflexivity.
Qed.

Lemma health_no_row_is_degraded_witness :
  let w := sample_world server_no_row in
  connects w /\ no_row w /\
  exists r s',
    health w initial_state = (Py.Returned r, s') /\
    status_code r = 500 /\
    body r !! "status" = Some (JStr "degraded").
Proof.
  intros w.
  assert (Hc : connects w) by reflexivity.
  assert (Hn : no_row w) by (split; [split; reflexivity | reflexivity]).
  split; [exact Hc |]. split; [exact Hn |].
  destruct (health_no_row_is_degraded w initial_state Hc Hn)
    as (r & s' & Hrun & Hst & Hs & _).
  exists r, s'. repeat split; assumption.
Defined.

End HealthFailures.

(** ** The answers of [/] and [/info] *)

Section StaticRoutes.
Import Psycopg2.

(** C7. The home handler answers 200 with exactly the fields service,
    message, timestamp and status; the timestamp is [isoformat] of the
    clock and has the shape of an ISO-8601 date-time; and for every
    behaviour of the database server and every state of the driver the
    answer is the same and the driver is not touched. *)
Theorem home_response (w : world) (s : state) :
  Py.datetime_valid (w_now w) ->
  exists r ts,
    home w s = (Py.Returned r, s) /\
    status_code r = 200 /\
    dom (body r)
      = ({[ "service"; "message"; "timestamp"; "status" ]} : gset string) /\
    body r !! "service" = Some (JStr "Python test Application") /\
    body r !! "message" = Some (JStr "Hello from Ibrahim!") /\
    body r !! "status" = Some (JStr "running") /\
    body r !! "timestamp" = Some (JStr ts) /\
    ts = Py.isoformat (w_now w) /\
    Py.is_iso8601 ts = true /\
    (forall (db' : server) (s' : state),
       home (World (w_cfg w) db' (w_now w) (w_runtime w)) s'
       = (Py.Returned r, s')).
Proof.
  intros Hv. do 2 eexists.
  split; [reflexivity |].
  repeat (split; [reflexivity |]).
  split; [apply isoformat_is_iso8601; exact Hv |].
  intros db' s'. reflexivity.
Qed.

Lemma home_response_witness :
  let w := sample_world (server_down connection_refused) in
  Py.datetime_valid (w_now w) /\
  exists r,
    home w initial_state = (Py.Returned r, initial_state) /\
    status_code r = 200 /\
    body r !! "timestamp" = Some (JStr "2024-05-17T09:03:07").
Proof.
  intros w.
  assert (Hv : Py.datetime_valid (w_now w)) by (unfold Py.datetime_valid; simpl; lia).
  split; [exact Hv |].
  destruct (home_response w initial_state Hv)
    as (r & ts & Hrun & Hst & _ & _ & _ & _ & Hts & Heq & _).
  exists r. split; [exact Hrun |]. split; [exact Hst |].
  rewrite Hts, Heq. reflexivity.
Defined.

(** C6. For every environment the info handler answers 200, and its
    database_host and database_name are exactly the configured [DB_HOST]
    and [DB_NAME]: the value of the environment variable when it is set,
    ['localhost'] and ['testdb'] when it is not. *)
Theorem info_echoes_configuration
        (environ : gmap string string) (db : server) (now : Py.datetime)
        (rt : runtime) (s : state) :
  exists r,
    info (World (Config.load environ) db now rt) s = (Py.Returned r, s) /\
    status_code r = 200 /\
    body r !! "database_host"
      = Some (JStr (Config.DB_HOST (Config.load environ))) /\
    body r !! "database_name"
      = Some (JStr (Config.DB_NAME (Config.load environ))) /\
    Config.DB_HOST (Config.load environ)
      = match environ !! "DB_HOST" with Some v => v | None => "localhost" end /\
    Config.DB_NAME (Config.load environ)
      = match environ !! "DB_NAME" with Some v => v | None => "testdb" end.
Proof.
  eexists. split; [reflexivity |]. repeat split; reflexivity.
Qed.

(** C10. For every environment and every interpreter and Flask version
    running the process, the info handler reports the literal ['3.12.3']
    as python_version and the literal ['installed'] as flask_version. *)
Theorem info_version_literals (w : world) (s : state) :
  exists r,
    info w s = (Py.Returned r, s) /\
    body r !! "python_version" = Some (JStr "3.12.3") /\
    body r !! "flask_version" = Some (JStr "installed") /\
    (forall rt' : runtime,
       info (World (w_cfg w) (w_db w) (w_now w) rt') s = (Py.Returned r, s)).
Proof.
  eexists. split; [reflexivity |]. repeat split; reflexivity.
Qed.

End StaticRoutes.

(** ** Further properties of the handlers *)

Section ConnectionHelper.
Import Psycopg2.

(** X1. [get_db_connection] never raises. It returns the new connection, opened
    on the next handle, exactly when [psycopg2.connect] succeeds with the
    four configured parameters; when the attempt raises, whatever the
    exception, it returns [None], the exception is dropped, and nothing is
    opened. *)
Theorem get_db_connection_contract (w : world) (s : state) :
  exists r s',
    get_db_connection w s = (Py.Returned r, s') /\
    (r = None <-> exists e, connect_fails w e) /\
    (r = Some (next_id s) <-> connects w) /\
    (forall c, r = Some c ->
       c = next_id s /\ c ∈ open_conns s' /\
       new_events s s' = [EvConnect c]) /\
    (r = None ->
       open_conns s' = open_conns s /\ next_id s' = next_id s /\
       new_events s s' = [EvConnectFailed]).
Proof.
  unfold connect_fails, connects.
  unfold get_db_connection, try_except, bind, ret, globals, Db.connect.
  destruct (on_connect (w_db w) _ _ _ _) as [e|].
  - do 2 eexists. split; [reflexivity |].
    split; [split; [intros _; exists e; reflexivity | reflexivity] |].
    split; [split; discriminate |].
    split; [discriminate |].
    intros _. unfold Db.record. rewrite new_events_app. repeat split.
  - do 2 eexists. split; [reflexivity |].
    split; [split; [discriminate | intros [e He]; discriminate] |].
    split; [split; reflexivity |].
    split; [| discriminate].
    intros c Hc. injection Hc as <-.
    rewrite new_events_app.
    split; [reflexivity |].
    split; [apply elem_of_union_l, elem_of_singleton; reflexivity | reflexivity].
Qed.

End ConnectionHelper.

Section Configuration.

(** X2. The configuration only reads the four variables: environments that
    agree on [DB_HOST], [DB_NAME], [DB_USER] and [DB_PASS] give the same
    constants. *)
Theorem load_reads_four_variables (env1 env2 : gmap string string) :
  env1 !! "DB_HOST" = env2 !! "DB_HOST" ->
  env1 !! "DB_NAME" = env2 !! "DB_NAME" ->
  env1 !! "DB_USER" = env2 !! "DB_USER" ->
  env1 !! "DB_PASS" = env2 !! "DB_PASS" ->
  Config.load env1 = Config.load env2.
Proof.
  intros Hh Hn Hu Hp. unfold Config.load, Py.environ_get.
  rewrite Hh, Hn, Hu, Hp. reflexivity.
Qed.

Lemma load_reads_four_variables_witness :
  let env1 : gmap string string := {[ "DB_HOST" := "db1"; "PATH" := "/usr/bin" ]} in
  let env2 : gmap string string := {[ "DB_HOST" := "db1"; "HOME" := "/root" ]} in
  env1 !! "DB_HOST" = env2 !! "DB_HOST" /\
  env1 !! "DB_NAME" = env2 !! "DB_NAME" /\
  env1 !! "DB_USER" = env2 !! "DB_USER" /\
  env1 !! "DB_PASS" = env2 !! "DB_PASS" /\
  Config.load env1 = Config.load env2.
Proof.
  intros env1 env2.
  assert (Hh : env1 !! "DB_HOST" = env2 !! "DB_HOST") by reflexivity.
  assert (Hn : env1 !! "DB_NAME" = env2 !! "DB_NAME") by reflexivity.
  assert (Hu : env1 !! "DB_USER" = env2 !! "DB_USER") by reflexivity.
  assert (Hp : env1 !! "DB_PASS" = env2 !! "DB_PASS") by reflexivity.
  repeat (split; [assumption |]).
  exact (load_reads_four_variables env1 env2 Hh Hn Hu Hp).
Defined.

Local Ltac other_key := rewrite lookup_insert_ne by discriminate.
Local Ltac other_key_del := rewrite lookup_delete_ne by discriminate.

(** X3. Setting one of the four variables, to any value and also to the empty
    string, sets exactly the constant of that name and leaves the other
    three as they were; removing it puts the default back. *)
Theorem load_set_and_unset (environ : gmap string string) (v : string) :
  let c := Config.load environ in
  Config.load (<["DB_HOST" := v]> environ)
    = Config.Make v (Config.DB_NAME c) (Config.DB_USER c) (Config.DB_PASS c) /\
  Config.load (<["DB_NAME" := v]> environ)
    = Config.Make (Config.DB_HOST c) v (Config.DB_USER c) (Config.DB_PASS c) /\
  Config.load (<["DB_USER" := v]> environ)
    = Config.Make (Config.DB_HOST c) (Config.DB_NAME c) v (Config.DB_PASS c) /\
  Config.load (<["DB_PASS" := v]> environ)
    = Config.Make (Config.DB_HOST c) (Config.DB_NAME c) (Config.DB_USER c) v /\
  Config.load (delete "DB_HOST" environ)
    = Config.Make "localhost" (Config.DB_NAME c) (Config.DB_USER c) (Config.DB_PASS c) /\
  Config.load (delete "DB_NAME" environ)
    = Config.Make (Config.DB_HOST c) "testdb" (Config.DB_USER c) (Config.DB_PASS c) /\
  Config.load (delete "DB_USER" environ)
    = Config.Make (Config.DB_HOST c) (Config.DB_NAME c) "testuser" (Config.DB_PASS c) /\
  Config.load (delete "DB_PASS" environ)
    = Config.Make (Config.DB_HOST c) (Config.DB_NAME c) (Config.DB_USER c) "testpass".
Proof.
  unfold Config.load, Py.environ_get. cbn [Config.DB_HOST Config.DB_NAME Config.DB_USER Config.DB_PASS].
  repeat split.
  - rewrite lookup_insert_eq. repeat other_key. reflexivity.
  - rewrite lookup_insert_eq. repeat other_key. reflexivity.
  - rewrite lookup_insert_eq. repeat other_key. reflexivity.
  - rewrite lookup_insert_eq. repeat other_key. reflexivity.
  - rewrite lookup_delete_eq. repeat other_key_del. reflexivity.
  - rewrite lookup_delete_eq. repeat other_key_del. reflexivity.
  - rewrite lookup_delete_eq. repeat other_key_del. reflexivity.
  - rewrite lookup_delete_eq. repeat other_key_del. reflexivity.
Qed.

End Configuration.

Section HealthTable.
Import Psycopg2.

Local Ltac run :=
  unfold health, get_db_connection, try_except, bind, ret, lift, globals,
    datetime_now, Db.connect, Db.cursor, Db.execute, Db.fetchone,
    Db.cursor_close, Db.close, Db.record.

(** The three answers, told apart by what the server did. *)
Lemma health_classify (w : world) (s : state) :
  (exists e, connect_fails w e /\
             fst (health w s) = Py.Returned (unhealthy_rv (w_now w))) \/
  (connects w /\
   exists v, query_returns w v /\
             fst (health w s)
             = Py.Returned (healthy_rv (Py.slice0 2 (Py.split v)) (w_now w))) \/
  (connects w /\ (forall v, ~ query_returns w v) /\
   exists e, fst (health w s) = Py.Returned (degraded_rv e (w_now w))).
Proof.
  unfold connect_fails, connects, query_returns, executes. run.
  destruct (on_connect (w_db w) _ _ _ _) as [e|];
    [left; exists e; split; reflexivity |].
  right.
  destruct (on_cursor (w_db w)) as [e|].
  { right. split; [reflexivity |]. split.
    - intros v [[H _] _]. discriminate.
    - exists e. reflexivity. }
  destruct (on_execute (w_db w) _) as [e|].
  { right. split; [reflexivity |]. split.
    - intros v [[_ H] _]. discriminate.
    - exists e. reflexivity. }
  destruct (on_fetchone (w_db w)) as [[[|[|v] rest]|]|e].
  - right. split; [reflexivity |]. split.
    + intros v [_ [rest H]]. discriminate.
    + eexists (Py.Exc _ _). reflexivity.
  - right. split; [reflexivity |]. split.
    + intros v [_ [rest' H]]. discriminate.
    + eexists (Py.Exc _ _). reflexivity.
  - left. split; [reflexivity |]. exists v. split.
    + split; [split; reflexivity | exists rest; reflexivity].
    + reflexivity.
  - right. split; [reflexivity |]. split.
    + intros v [_ [rest H]]. discriminate.
    + eexists (Py.Exc _ _). reflexivity.
  - right. split; [reflexivity |]. split.
    + intros v [_ [rest H]]. discriminate.
    + exists e. reflexivity.
Qed.

(** X4. The answer of [/health] as a table. The status is 503 exactly when the
    connection attempt fails, 200 exactly when the connection opens and the
    query returns a row whose first column is a text, and 500 in every other
    case; and the body always agrees with the status: healthy/connected with
    a version and no error for 200, degraded/error with an error and no
    version for 500, unhealthy/disconnected with neither for 503. *)
Theorem health_decision_table (w : world) (s : state) :
  exists r s',
    health w s = (Py.Returned r, s') /\
    (status_code r = 503 <-> exists e, connect_fails w e) /\
    (status_code r = 200 <-> connects w /\ exists v, query_returns w v) /\
    (status_code r = 500 <-> connects w /\ forall v, ~ query_returns w v) /\
    (status_code r = 200 ->
       body r !! "status" = Some (JStr "healthy") /\
       body r !! "database" = Some (JStr "connected") /\
       is_Some (body r !! "db_version") /\ body r !! "error" = None) /\
    (status_code r = 500 ->
       body r !! "status" = Some (JStr "degraded") /\
       body r !! "database" = Some (JStr "error") /\
       is_Some (body r !! "error") /\ body r !! "db_version" = None) /\
    (status_code r = 503 ->
       body r !! "status" = Some (JStr "unhealthy") /\
       body r !! "database" = Some (JStr "disconnected") /\
       body r !! "error" = None /\ body r !! "db_version" = None).
Proof.
  destruct (health_returns w s) as (r & s' & Hrun & _).
  exists r, s'. split; [exact Hrun |].
  pose proof (health_classify w s) as Hcl. rewrite Hrun in Hcl. simpl in Hcl.
  assert (Hexcl : forall e, connect_fails w e -> connects w -> False).
  { unfold connect_fails, connects. intros e H1 H2. congruence. }
  destruct Hcl as [[e [Hf Hr]] | [[Hc [v [Hq Hr]]] | [Hc [Hnq [e Hr]]]]];
    injection Hr as ->.
  - split; [split; [intros _; exists e; exact Hf | reflexivity] |].
    split; [split; [discriminate | intros [Hc _]; destruct (Hexcl e Hf Hc)] |].
    split; [split; [discriminate | intros [Hc _]; destruct (Hexcl e Hf Hc)] |].
    split; [discriminate |]. split; [discriminate |].
    intros _. repeat split.
  - split; [split; [discriminate | intros [e He]; destruct (Hexcl e He Hc)] |].
    split; [split; [intros _; split; [exact Hc | exists v; exact Hq]
                   | reflexivity] |].
    split; [split; [discriminate | intros [_ Hn]; destruct (Hn v Hq)] |].
    split; [| split; discriminate].
    intros _. repeat split. eexists. reflexivity.
  - split; [split; [discriminate | intros [e' He]; destruct (Hexcl e' He Hc)] |].
    split; [split; [discriminate | intros [_ [v Hq]]; destruct (Hnq v Hq)] |].
    split; [split; [intros _; split; assumption | reflexivity] |].
    split; [discriminate |]. split; [| discriminate].
    intros _. repeat split. eexists. reflexivity.
Qed.

End HealthTable.

Section OpenConnections.
Import Psycopg2.

Lemma close_after_open (n : nat) (X : gset nat) :
  n ∉ X -> ({[n]} ∪ X) ∖ {[n]} = X.
Proof.
  intros Hn. apply set_eq. intros x.
  rewrite elem_of_difference, elem_of_union, !elem_of_singleton.
  split.
  - intros [[-> | Hx] Hne]; [destruct Hne; reflexivity | exact Hx].
  - intros Hx. split; [right; exact Hx |]. intros ->. apply Hn, Hx.
Qed.

Local Ltac run :=
  unfold health, get_db_connection, try_except, bind, ret, lift, globals,
    datetime_now, Db.connect, Db.cursor, Db.execute, Db.fetchone,
    Db.cursor_close, Db.close, Db.record.

Lemma skips_close_answer (w : world) (s : state) :
  skips_close (w_cfg w) (w_db w) = true ->
  exists e, fst (health w s) = Py.Returned (degraded_rv e (w_now w)).
Proof.
  unfold skips_close. run.
  destruct (on_connect (w_db w) _ _ _ _) as [e|]; [discriminate |].
  destruct (on_cursor (w_db w)) as [e|]; [intros _; exists e; reflexivity |].
  destruct (on_execute (w_db w) _) as [e|]; [intros _; exists e; reflexivity |].
  destruct (on_fetchone (w_db w)) as [[[|v rest]|]|e]; intros H;
    try discriminate.
  - eexists (Py.Exc _ _). reflexivity.
  - eexists (Py.Exc _ _). reflexivity.
  - exists e. reflexivity.
Qed.

(** Which [close()] calls an invocation makes on connections. *)
Lemma health_close_calls (w : world) (s : state) :
  (forall c, In (EvConnClose c) (new_events s (snd (health w s))) ->
             c = next_id s) /\
  (In (EvConnClose (next_id s)) (new_events s (snd (health w s))) <->
   connects w /\ skips_close (w_cfg w) (w_db w) = false).
Proof.
  unfold connects, skips_close. run.
  destruct (on_connect (w_db w) _ _ _ _) as [e|].
  { cbn [snd]. rewrite new_events_app. split.
    - intros c [H | []]. discriminate.
    - split; [intros [H | []]; discriminate | intros [H _]; discriminate]. }
  destruct (on_cursor (w_db w)) as [e|].
  { cbn [snd fst log]. rewrite <- !app_assoc, new_events_app. split.
    - intros c [H | [H | []]]; discriminate.
    - split; [intros [H | [H | []]]; discriminate | intros [_ H]; discriminate]. }
  destruct (on_execute (w_db w) _) as [e|].
  { cbn [snd fst log]. rewrite <- !app_assoc, new_events_app. split.
    - intros c [H | [H | [H | []]]]; discriminate.
    - split; [intros [H | [H | [H | []]]]; discriminate
             | intros [_ H]; discriminate]. }
  destruct (on_fetchone (w_db w)) as [[[|[|v] rest]|]|e];
    cbn [snd fst log Py.getitem0 Py.split_val];
    rewrite <- !app_assoc, new_events_app.
  - split.
    + intros c [H | [H | [H | [H | []]]]]; discriminate.
    + split; [intros [H | [H | [H | [H | []]]]]; discriminate
             | intros [_ H]; discriminate].
  - split.
    + intros c [H | [H | [H | [H | [H | [H | []]]]]]]; try discriminate.
      injection H as <-. reflexivity.
    + split; [intros _; split; reflexivity | intros _; simpl; tauto].
  - split.
    + intros c [H | [H | [H | [H | [H | [H | []]]]]]]; try discriminate.
      injection H as <-. reflexivity.
    + split; [intros _; split; reflexivity | intros _; simpl; tauto].
  - split.
    + intros c [H | [H | [H | [H | []]]]]; discriminate.
    + split; [intros [H | [H | [H | [H | []]]]]; discriminate
             | intros [_ H]; discriminate].
  - split.
    + intros c [H | [H | [H | [H | []]]]]; discriminate.
    + split; [intros [H | [H | [H | [H | []]]]]; discriminate
             | intros [_ H]; discriminate].
Qed.

(** X5. [/health] calls [conn.close()] on no connection but the one it
    opened itself, and it calls it on that one exactly when the connection
    opened and the [try] block got past [cur.fetchone()[0]] (a row with at
    least one column came back); when the connection opened and the block
    was left earlier (the cursor, the statement or the fetch raised, or no
    row or an empty row came back) the handler returns without the call,
    and the answer is then a 500. Every 200 answer comes after the call. *)
Theorem health_explicit_close (w : world) (s : state) :
  let s' := snd (health w s) in
  (forall c, In (EvConnClose c) (new_events s s') -> c = next_id s) /\
  (In (EvConnClose (next_id s)) (new_events s s') <->
   connects w /\ skips_close (w_cfg w) (w_db w) = false) /\
  (skips_close (w_cfg w) (w_db w) = true ->
   connects w /\
   exists r, fst (health w s) = Py.Returned r /\ status_code r = 500) /\
  (forall r, fst (health w s) = Py.Returned r -> status_code r = 200 ->
     In (EvConnClose (next_id s)) (new_events s s')).
Proof.
  intros s'. subst s'.
  destruct (health_close_calls w s) as [Hown Hiff].
  split; [exact Hown |]. split; [exact Hiff |]. split.
  - intros Hsk. split.
    + unfold connects. unfold skips_close in Hsk.
      destruct (on_connect (w_db w) _ _ _ _); [discriminate | reflexivity].
    + destruct (skips_close_answer w s Hsk) as [e He].
      eexists. split; [exact He | reflexivity].
  - intros r Hr H200. apply Hiff.
    destruct (skips_close (w_cfg w) (w_db w)) eqn:Hsk.
    + destruct (skips_close_answer w s Hsk) as [e He].
      rewrite He in Hr. injection Hr as <-. discriminate.
    + split; [| reflexivity].
      pose proof (health_classify w s) as Hcl. rewrite Hr in Hcl.
      destruct Hcl as [[e [_ Hr']] | [[Hc _] | [Hc _]]]; try exact Hc.
      injection Hr' as ->. discriminate.
Qed.

(** X6. A NULL version column: the row is fetched and both the cursor and the
    connection are closed before [db_version.split()] raises, so the answer
    is 500 degraded with the message of the [AttributeError], and this is
    the one failure after which the connection is not left open. *)
Theorem health_null_version (w : world) (s : state) (rest : list Py.sqlval) :
  connects w -> executes w ->
  on_fetchone (w_db w) = Py.Returned (Some (Py.SqlNull :: rest)) ->
  exists r s',
    health w s = (Py.Returned r, s') /\
    status_code r = 500 /\
    body r !! "status" = Some (JStr "degraded") /\
    body r !! "error"
      = Some (JStr "'NoneType' object has no attribute 'split'") /\
    new_events s s'
      = [EvConnect (next_id s); EvCursor (next_id s);
         EvExecute (next_id s) "SELECT version();"; EvFetchone (next_id s);
         EvCursorClose (next_id s); EvConnClose (next_id s)] /\
    next_id s ∉ open_conns s'.
Proof.
  unfold connects, executes. intros Hc [Hcur Hex] Hf.
  unfold health, get_db_connection, try_except, bind, ret, lift, globals,
    datetime_now, Db.connect, Db.cursor, Db.execute, Db.fetchone,
    Db.cursor_close, Db.close, Db.record.
  rewrite Hc, Hcur, Hex, Hf. simpl. rewrite <- !app_assoc. simpl.
  do 2 eexists. split; [reflexivity |].
  repeat (split; [reflexivity |]).
  split; [apply new_events_app |].
  simpl. intros H. apply elem_of_difference in H. destruct H as [_ H].
  apply H, elem_of_singleton. reflexivity.
Qed.

Lemma health_null_version_witness :
  let w := sample_world server_null_version in
  connects w /\ executes w /\
  on_fetchone (w_db w) = Py.Returned (Some [Py.SqlNull]) /\
  exists r s',
    health w initial_state = (Py.Returned r, s') /\
    status_code r = 500 /\
    open_conns s' = ∅.
Proof.
  intros w.
  assert (Hc : connects w) by reflexivity.
  assert (Hx : executes w) by (split; reflexivity).
  assert (Hf : on_fetchone (w_db w) = Py.Returned (Some [Py.SqlNull]))
    by reflexivity.
  repeat (split; [assumption |]).
  destruct (health_null_version w initial_state [] Hc Hx Hf)
    as (r & s' & Hrun & Hst & _).
  exists r, s'. split; [exact Hrun |]. split; [exact Hst |].
  injection Hrun as _ <-. simpl.
  apply close_after_open. apply not_elem_of_empty.
Defined.

End OpenConnections.

Section VersionDetail.
Import Psycopg2.

Lemma append_cons (c : ascii) (a s : string) :
  String c a +:+ s = String c (a +:+ s).
Proof. reflexivity. Qed.

Lemma append_assoc_snoc (tok a : string) (c : ascii) :
  (tok +:+ String c EmptyString) +:+ a = tok +:+ String c a.
Proof.
  induction tok as [|d tok IH]; [reflexivity |].
  rewrite !append_cons, IH. reflexivity.
Qed.

Lemma append_empty_r (a : string) : a +:+ EmptyString = a.
Proof.
  induction a as [|c a IH]; [reflexivity |].
  rewrite append_cons, IH. reflexivity.
Qed.

(** Leading separators are skipped. *)
Lemma split_go_skip_blank (b s : string) :
  blank b -> Py.split_go EmptyString (b +:+ s) = Py.split_go EmptyString s.
Proof.
  unfold blank. induction b as [|c b IH]; intros Hb; [reflexivity |].
  simpl in Hb. inversion Hb as [|? ? Hc Hb']; subst.
  rewrite append_cons. simpl. rewrite Hc. apply IH, Hb'.
Qed.

(** Characters that are not separators are collected into the token. *)
Lemma split_go_collect (a tok s : string) :
  Forall (fun c => Py.isspace c = false) (chars a) ->
  Py.split_go tok (a +:+ s) = Py.split_go (tok +:+ a) s.
Proof.
  revert tok. induction a as [|c a IH]; intros tok Ha.
  - rewrite append_empty_r. reflexivity.
  - simpl in Ha. inversion Ha as [|? ? Hc Ha']; subst.
    rewrite append_cons. simpl. rewrite Hc.
    rewrite (IH _ Ha'), append_assoc_snoc. reflexivity.
Qed.

(** A token ends at the end of the string or at a separator. *)
Lemma split_go_token_end (tok s : string) :
  tok <> EmptyString -> token_end s ->
  Py.split_go tok s = tok :: Py.split_go EmptyString s.
Proof.
  intros Htok Hs. destruct s as [|c s]; simpl.
  - destruct tok; [contradiction | reflexivity].
  - simpl in Hs. rewrite Hs. destruct tok; [contradiction | reflexivity].
Qed.

Lemma split_leading_token (lead a rest : string) :
  blank lead -> token a -> token_end rest ->
  Py.split (lead +:+ a +:+ rest) = a :: Py.split rest.
Proof.
  intros Hl [Hne Ha] Hr. unfold Py.split.
  rewrite (split_go_skip_blank _ _ Hl), (split_go_collect _ _ _ Ha).
  change (EmptyString +:+ a) with a.
  apply split_go_token_end; assumption.
Qed.

Lemma blank_token_end (sep s : string) :
  blank sep -> sep <> EmptyString -> token_end (sep +:+ s).
Proof.
  unfold blank. intros Hb Hne. destruct sep as [|c sep]; [contradiction |].
  rewrite append_cons. simpl in *. inversion Hb; assumption.
Qed.

(** X7. Whenever an answer of [/health] has a [db_version], the status is 200
    and the detail is a list of at most two tokens, each of them non-empty
    and free of whitespace. *)
Theorem health_version_detail_shape (w : world) (s : state) :
  exists r s',
    health w s = (Py.Returned r, s') /\
    forall d, body r !! "db_version" = Some d ->
      status_code r = 200 /\
      exists tokens,
        d = JArr tokens /\ (length tokens <= 2)%nat /\ Forall token tokens.
Proof.
  destruct (health_returns w s) as (r & s' & Hrun & _).
  exists r, s'. split; [exact Hrun |].
  pose proof (health_classify w s) as Hcl. rewrite Hrun in Hcl. simpl in Hcl.
  destruct Hcl as [[e [_ Hr]] | [[_ [v [_ Hr]]] | [_ [_ [e Hr]]]]];
    injection Hr as ->; intros d Hd.
  - change (@None json = Some d) in Hd. discriminate.
  - change (Some (JArr (Py.slice0 2 (Py.split v))) = Some d) in Hd.
    injection Hd as <-.
    split; [reflexivity |].
    exists (Py.slice0 2 (Py.split v)).
    split; [reflexivity |].
    split; [apply slice2_length |].
    apply Forall_forall. intros t Ht. unfold Py.slice0 in Ht.
    apply elem_of_take in Ht. destruct Ht as (i & Hi & _).
    apply (split_tokens v t), list_elem_of_In, list_elem_of_lookup.
    exists i. exact Hi.
  - change (@None json = Some d) in Hd. discriminate.
Qed.

(** X8. For a version text made of a first token, a run of whitespace, a second
    token and then the end or more whitespace-separated text (with any
    leading whitespace), the detail of the healthy answer is exactly those
    two tokens. *)
Theorem health_first_two_tokens
        (w : world) (s : state) (lead a sep b rest : string) :
  connects w ->
  query_returns w (lead +:+ a +:+ sep +:+ b +:+ rest) ->
  blank lead -> token a -> blank sep -> sep <> EmptyString ->
  token b -> token_end rest ->
  exists r s',
    health w s = (Py.Returned r, s') /\
    status_code r = 200 /\
    body r !! "db_version" = Some (JArr [a; b]).
Proof.
  intros Hc Hq Hl Ha Hsep Hne Hb Hr. do 2 eexists.
  split; [apply (health_healthy w s _ Hc Hq) |].
  split; [reflexivity |].
  rewrite (split_leading_token lead a _ Hl Ha (blank_token_end _ _ Hsep Hne)).
  rewrite (split_leading_token sep b rest Hsep Hb Hr).
  reflexivity.
Qed.

Lemma health_first_two_tokens_witness :
  let w := sample_world (server_version "PostgreSQL 14.5 on x86_64-pc-linux-gnu") in
  connects w /\
  query_returns w ("" +:+ "PostgreSQL" +:+ " " +:+ "14.5" +:+ " on x86_64-pc-linux-gnu") /\
  blank "" /\ token "PostgreSQL" /\ blank " " /\ " " <> EmptyString /\
  token "14.5" /\ token_end " on x86_64-pc-linux-gnu" /\
  exists r s',
    health w initial_state = (Py.Returned r, s') /\
    body r !! "db_version" = Some (JArr ["PostgreSQL"; "14.5"]).
Proof.
  intros w.
  assert (Hc : connects w) by reflexivity.
  assert (Hq : query_returns w
            ("" +:+ "PostgreSQL" +:+ " " +:+ "14.5" +:+ " on x86_64-pc-linux-gnu"))
    by (split; [split; reflexivity | exists []; reflexivity]).
  assert (Hl : blank "") by constructor.
  assert (Ha : token "PostgreSQL")
    by (split; [discriminate | repeat constructor]).
  assert (Hs : blank " ") by repeat constructor.
  assert (Hne : " " <> EmptyString) by discriminate.
  assert (Hb : token "14.5") by (split; [discriminate | repeat constructor]).
  assert (Hr : token_end " on x86_64-pc-linux-gnu") by reflexivity.
  repeat (split; [assumption |]).
  destruct (health_first_two_tokens w initial_state _ _ _ _ _
              Hc Hq Hl Ha Hs Hne Hb Hr) as (r & s' & Hrun & _ & Hv).
  exists r, s'. split; assumption.
Defined.

End VersionDetail.

Section Timestamps.
Import Psycopg2.

Lemma fixed_acc (w : nat) (n : Z) (acc : string) :
  Py.fixed w n acc = Py.fixed w n EmptyString +:+ acc.
Proof.
  revert n acc. induction w as [|w IH]; intros n acc; [reflexivity |].
  simpl Py.fixed.
  rewrite (IH (n / 10) (String _ acc)), (IH (n / 10) (String _ EmptyString)).
  rewrite append_assoc_snoc. reflexivity.
Qed.

Lemma digit_inj (a b : Z) :
  0 <= a < 10 -> 0 <= b < 10 -> Py.digit a = Py.digit b -> a = b.
Proof.
  intros Ha Hb H. unfold Py.digit in H.
  apply (f_equal N_of_ascii) in H.
  rewrite !N_ascii_embedding in H by lia. lia.
Qed.

(** Fixed-width printing loses nothing within the width. *)
Lemma fixed_inj (w : nat) :
  forall (a b : Z) (acc acc' : string),
    0 <= a < 10 ^ Z.of_nat w -> 0 <= b < 10 ^ Z.of_nat w ->
    Py.fixed w a acc = Py.fixed w b acc' -> a = b /\ acc = acc'.
Proof.
  induction w as [|w IH]; intros a b acc acc' Ha Hb H.
  - simpl in *. split; [lia | exact H].
  - rewrite Nat2Z.inj_succ, Z.pow_succ_r in Ha, Hb by lia.
    simpl Py.fixed in H.
    apply IH in H.
    + destruct H as [Hq Hs]. injection Hs as Hd Hacc.
      apply digit_inj in Hd; try (apply Z.mod_pos_bound; lia).
      split; [| exact Hacc].
      rewrite (Z.div_mod a 10), (Z.div_mod b 10) by lia. lia.
    + split; [apply Z.div_pos; lia | apply Z.div_lt_upper_bound; lia].
    + split; [apply Z.div_pos; lia | apply Z.div_lt_upper_bound; lia].
Qed.

Local Ltac width_ok := first [ lia | simpl; lia ].

(** [isoformat] field by field. *)
Lemma isoformat_nested (d : Py.datetime) :
  Py.datetime_valid d ->
  Py.isoformat d =
    Py.fixed 4 (Py.year d) (String "-" (
    Py.fixed 2 (Py.month d) (String "-" (
    Py.fixed 2 (Py.day d) (String "T" (
    Py.fixed 2 (Py.hour d) (String ":" (
    Py.fixed 2 (Py.minute d) (String ":" (
    Py.fixed 2 (Py.second d)
      (if Py.microsecond d =? 0 then EmptyString
       else String "." (Py.fixed 6 (Py.microsecond d) EmptyString)))))))))))).
Proof.
  intros (Hy & Hmo & Hd & Hh & Hmi & Hs & Hus).
  unfold Py.isoformat.
  rewrite (format_d_fixed 4 (Py.year d)) by width_ok.
  rewrite (format_d_fixed 2 (Py.month d)) by width_ok.
  rewrite (format_d_fixed 2 (Py.day d)) by width_ok.
  rewrite (format_d_fixed 2 (Py.hour d)) by width_ok.
  rewrite (format_d_fixed 2 (Py.minute d)) by width_ok.
  rewrite (format_d_fixed 2 (Py.second d)) by width_ok.
  rewrite (format_d_fixed 6 (Py.microsecond d)) by width_ok.
  rewrite (fixed_acc 4 (Py.year d) (String _ _)).
  rewrite (fixed_acc 2 (Py.month d) (String _ _)).
  rewrite (fixed_acc 2 (Py.day d) (String _ _)).
  rewrite (fixed_acc 2 (Py.hour d) (String _ _)).
  rewrite (fixed_acc 2 (Py.minute d) (String _ _)).
  destruct (Py.microsecond d =? 0).
  - reflexivity.
  - rewrite (fixed_acc 2 (Py.second d) (String _ _)). reflexivity.
Qed.

Lemma string_tail_eq (c : ascii) (a b : string) :
  String c a = String c b -> a = b.
Proof. intros H. injection H as H. exact H. Qed.

(** The timestamp loses nothing: two clock readings that print the same
    are the same reading. *)
Lemma isoformat_inj (d1 d2 : Py.datetime) :
  Py.datetime_valid d1 -> Py.datetime_valid d2 ->
  Py.isoformat d1 = Py.isoformat d2 -> d1 = d2.
Proof.
  intros Hv1 Hv2 H.
  rewrite (isoformat_nested d1 Hv1), (isoformat_nested d2 Hv2) in H.
  destruct Hv1 as (Hy1 & Hmo1 & Hd1 & Hh1 & Hmi1 & Hs1 & Hus1).
  destruct Hv2 as (Hy2 & Hmo2 & Hd2 & Hh2 & Hmi2 & Hs2 & Hus2).
  apply fixed_inj in H; [| width_ok | width_ok].
  destruct H as [Ey H]. apply string_tail_eq in H.
  apply fixed_inj in H; [| width_ok | width_ok].
  destruct H as [Emo H]. apply string_tail_eq in H.
  apply fixed_inj in H; [| width_ok | width_ok].
  destruct H as [Ed H]. apply string_tail_eq in H.
  apply fixed_inj in H; [| width_ok | width_ok].
  destruct H as [Eh H]. apply string_tail_eq in H.
  apply fixed_inj in H; [| width_ok | width_ok].
  destruct H as [Emi H]. apply string_tail_eq in H.
  apply fixed_inj in H; [| width_ok | width_ok].
  destruct H as [Es H].
  assert (Eus : Py.microsecond d1 = Py.microsecond d2).
  { destruct (Py.microsecond d1 =? 0) eqn:E1;
      destruct (Py.microsecond d2 =? 0) eqn:E2; try discriminate.
    - apply Z.eqb_eq in E1, E2. congruence.
    - apply string_tail_eq in H.
      apply fixed_inj in H; [| width_ok | width_ok]. tauto. }
  destruct d1, d2. simpl in *. congruence.
Qed.

Lemma view_timestamp (r : route) (w : world) (s : state)
      (rv : view_rv) (ts : json) :
  fst (view r w s) = Py.Returned rv ->
  body rv !! "timestamp" = Some ts ->
  ts = JStr (Py.isoformat (w_now w)).
Proof.
  intros Hrun Hts. destruct r; simpl view in Hrun.
  - injection Hrun as <-.
    change (Some (JStr (Py.isoformat (w_now w))) = Some ts) in Hts.
    congruence.
  - destruct (health_returns w s) as (r' & s' & Hr & Hcase).
    rewrite Hr in Hrun. injection Hrun as ->.
    destruct Hcase as [[tokens ->] | [[e ->] | ->]];
      change (Some (JStr (Py.isoformat (w_now w))) = Some ts) in Hts;
      congruence.
  - injection Hrun as <-.
    change (@None json = Some ts) in Hts. discriminate.
Qed.

(** X9. Every answer of [/health], whichever of the three, carries a timestamp:
    [isoformat] of the clock reading of the invocation, in the shape of an
    ISO-8601 date-time. *)
Theorem health_timestamp (w : world) (s : state) :
  Py.datetime_valid (w_now w) ->
  exists r s' ts,
    health w s = (Py.Returned r, s') /\
    body r !! "timestamp" = Some (JStr ts) /\
    ts = Py.isoformat (w_now w) /\
    Py.is_iso8601 ts = true.
Proof.
  intros Hv. destruct (health_returns w s) as (r & s' & Hrun & Hcase).
  exists r, s', (Py.isoformat (w_now w)).
  split; [exact Hrun |].
  split; [destruct Hcase as [[tokens ->] | [[e ->] | ->]]; reflexivity |].
  split; [reflexivity | apply isoformat_is_iso8601; exact Hv].
Qed.

Lemma health_timestamp_witness :
  let w := sample_world (server_rejecting permission_denied) in
  Py.datetime_valid (w_now w) /\
  exists r s',
    health w initial_state = (Py.Returned r, s') /\
    body r !! "timestamp" = Some (JStr "2024-05-17T09:03:07").
Proof.
  intros w.
  assert (Hv : Py.datetime_valid (w_now w))
    by (unfold Py.datetime_valid; simpl; lia).
  split; [exact Hv |].
  destruct (health_timestamp w initial_state Hv)
    as (r & s' & ts & Hrun & Hts & Heq & _).
  exists r, s'. split; [exact Hrun |]. rewrite Hts, Heq. reflexivity.
Defined.

(** X10. The timestamp of an answer tells the clock reading: two answers, of any
    routes and from any worlds, that carry the same timestamp were produced
    at the same reading of the clock, down to the microsecond. *)
Theorem timestamp_determines_clock
        (ra rb : route) (w1 w2 : world) (s1 s2 : state)
        (r1 r2 : view_rv) (ts : json) :
  Py.datetime_valid (w_now w1) -> Py.datetime_valid (w_now w2) ->
  fst (view ra w1 s1) = Py.Returned r1 ->
  fst (view rb w2 s2) = Py.Returned r2 ->
  body r1 !! "timestamp" = Some ts ->
  body r2 !! "timestamp" = Some ts ->
  w_now w1 = w_now w2.
Proof.
  intros Hv1 Hv2 Hr1 Hr2 Ht1 Ht2.
  apply (view_timestamp _ _ _ _ _ Hr1) in Ht1.
  apply (view_timestamp _ _ _ _ _ Hr2) in Ht2.
  apply isoformat_inj; congruence.
Qed.

Lemma timestamp_determines_clock_witness :
  let w1 := sample_world (server_down connection_refused) in
  let w2 := sample_world (server_version "PostgreSQL 14.5") in
  Py.datetime_valid (w_now w1) /\ Py.datetime_valid (w_now w2) /\
  fst (view RHome w1 initial_state)
    = Py.Returned (Rv {[ "service" := JStr "Python test Application";
                         "message" := JStr "Hello from Ibrahim!";
                         "timestamp" := JStr "2024-05-17T09:03:07";
                         "status" := JStr "running" ]}) /\
  fst (view RHealth w2 initial_state)
    = Py.Returned (healthy_rv ["PostgreSQL"; "14.5"] sample_now) /\
  w_now w1 = w_now w2.
Proof.
  intros w1 w2.
  assert (Hv1 : Py.datetime_valid (w_now w1))
    by (unfold Py.datetime_valid; simpl; lia).
  assert (Hv2 : Py.datetime_valid (w_now w2))
    by (unfold Py.datetime_valid; simpl; lia).
  split; [exact Hv1 |]. split; [exact Hv2 |].
  split; [reflexivity |]. split; [reflexivity |].
  apply (timestamp_determines_clock RHome RHealth w1 w2
           initial_state initial_state _ _ (JStr "2024-05-17T09:03:07")
           Hv1 Hv2 eq_refl eq_refl); reflexivity.
Defined.

End Timestamps.

Section Credentials.
Import Psycopg2.



End Credentials.

(** ** A run of requests *)

Section Runs.
Import Psycopg2.

Variables (cfg : Config.t) (rt : runtime).

(** One request: it is answered, and the driver state stays in order. *)
Lemma view_answers (r : route) (db : server) (now : Py.datetime) (s : state) :
  exists rv s',
    view r (World cfg db now rt) s = (Py.Returned rv, s') /\
    (is_health r = false -> status_code rv = 200 /\ s' = s) /\
    (status_code rv = 200 \/ status_code rv = 500 \/ status_code rv = 503).
Proof.
  destruct r; simpl view.
  - do 2 eexists. split; [reflexivity |]. split; [| left; reflexivity].
    intros _. split; reflexivity.
  - destruct (health_returns (World cfg db now rt) s) as (rv & s' & Hrun & Hc).
    exists rv, s'. split; [exact Hrun |]. split; [discriminate |].
    destruct Hc as [[tokens ->] | [[e ->] | ->]];
      [left | right; left | right; right]; reflexivity.
  - do 2 eexists. split; [reflexivity |]. split; [| left; reflexivity].
    intros _. split; reflexivity.
Qed.

(** X12. Every request of a run is answered: the process never raises, the
    answers come in the order of the requests, [/] and [/info] always
    answer 200, and [/health] answers 200, 500 or 503. *)
Theorem serve_answers_every_request (reqs : list request) (s : state) :
  Forall2
    (fun (q : request) (res : Py.result view_rv) =>
       exists rv,
         res = Py.Returned rv /\
         (is_health (fst (fst q)) = false -> status_code rv = 200) /\
         (status_code rv = 200 \/ status_code rv = 500 \/ status_code rv = 503))
    reqs (fst (serve cfg rt reqs s)).
Proof.
  revert s. induction reqs as [|[[r db] now] rest IH]; intros s.
  - constructor.
  - simpl serve.
    destruct (view_answers r db now s) as (rv & s1 & Hrun & Hstatic & Hcode).
    rewrite Hrun. specialize (IH s1).
    destruct (serve cfg rt rest s1) as [out s2]. simpl in *.
    constructor; [| exact IH].
    exists rv. split; [reflexivity |]. split; [| exact Hcode].
    intros Hr. apply Hstatic, Hr.
Qed.

(** X14. Requests to [/] and [/info] leave no trace in the driver: the driver
    state after a run is the state after its [/health] requests alone. *)
Theorem serve_static_routes_invisible (reqs : list request) (s : state) :
  snd (serve cfg rt reqs s)
  = snd (serve cfg rt
           (List.filter (fun q : request => is_health (fst (fst q))) reqs) s).
Proof.
  revert s. induction reqs as [|[[r db] now] rest IH]; intros s;
    [reflexivity |].
  destruct (view_answers r db now s) as (rv & s1 & Hrun & Hstatic & _).
  simpl List.filter. destruct (is_health r) eqn:Hr.
  - simpl serve. rewrite Hrun. specialize (IH s1).
    destruct (serve cfg rt rest s1) as [out s2].
    destruct (serve cfg rt (List.filter _ rest) s1) as [out' s2'].
    simpl in *. exact IH.
  - simpl serve. rewrite Hrun.
    destruct (Hstatic eq_refl) as [_ ->]. specialize (IH s).
    destruct (serve cfg rt rest s) as [out s2]. simpl in *. exact IH.
Qed.

End Runs.

Section Protocol.
Import Psycopg2.

(** X15. The driver calls of one [/health] invocation are the failed attempt
    alone, or a prefix of connect, cursor, execute, fetchone, cursor close,
    connection close, all on the handle of the invocation: the prefix stops
    after the cursor, the statement or the fetch when that raises, and runs
    to the end otherwise. So an invocation makes one connection attempt,
    executes at most one statement, always [SELECT version();], and never
    closes the cursor without closing the connection. *)
Theorem health_driver_protocol (w : world) (s : state) :
  let s' := snd (health w s) in
  log s' = (log s ++ new_events s s')%list /\
  (new_events s s' = [EvConnectFailed] \/
   exists k,
     (k = 2 \/ k = 3 \/ k = 4 \/ k = 6)%nat /\
     new_events s s' = firstn k (health_protocol (next_id s))) /\
  (forall c sql, In (EvExecute c sql) (new_events s s') ->
     c = next_id s /\ sql = "SELECT version();").
Proof.
  unfold health, get_db_connection, try_except, bind, ret, lift, globals,
    datetime_now, Db.connect, Db.cursor, Db.execute, Db.fetchone,
    Db.cursor_close, Db.close, Db.record.
  assert (Hex : forall k c sql,
            In (EvExecute c sql) (firstn k (health_protocol (next_id s))) ->
            c = next_id s /\ sql = "SELECT version();").
  { intros k c sql Hin. apply list_elem_of_In, elem_of_take in Hin.
    destruct Hin as (i & Hi & _).
    destruct i as [|[|[|[|[|[|i]]]]]]; simpl in Hi; try discriminate.
    injection Hi as <- <-. split; reflexivity. }
  assert (Hshape : forall nid oc k,
            let s' := {| next_id := nid; open_conns := oc;
                         log := (log s ++ firstn k (health_protocol (next_id s)))%list |} in
            (k = 2 \/ k = 3 \/ k = 4 \/ k = 6)%nat ->
            log s' = (log s ++ new_events s s')%list /\
            (new_events s s' = [EvConnectFailed] \/
             exists k,
               (k = 2 \/ k = 3 \/ k = 4 \/ k = 6)%nat /\
               new_events s s' = firstn k (health_protocol (next_id s))) /\
            (forall c sql, In (EvExecute c sql) (new_events s s') ->
               c = next_id s /\ sql = "SELECT version();")).
  { intros nid oc k s' Hk. subst s'. rewrite new_events_app.
    split; [reflexivity |]. split; [right; exists k; split; [exact Hk | reflexivity] |].
    apply Hex. }
  destruct (on_connect (w_db w) _ _ _ _) as [e|].
  { cbn [snd]. rewrite new_events_app. split; [reflexivity |].
    split; [left; reflexivity |].
    intros c sql [H | []]. discriminate. }
  destruct (on_cursor (w_db w)) as [e|];
    [cbn [snd fst next_id open_conns log]; rewrite <- !app_assoc;
     apply (Hshape _ _ 2%nat); tauto |].
  destruct (on_execute (w_db w) _) as [e|];
    [cbn [snd fst next_id open_conns log]; rewrite <- !app_assoc;
     apply (Hshape _ _ 3%nat); tauto |].
  destruct (on_fetchone (w_db w)) as [[[|[|v] rest]|]|e];
    cbn [snd fst next_id open_conns log Py.getitem0 Py.split_val];
    rewrite <- !app_assoc;
    first [ apply (Hshape _ _ 4%nat); tauto | apply (Hshape _ _ 6%nat); tauto ].
Qed.

End Protocol.

(** ** Invocations do not share anything *)

Section Invocations.
Import Psycopg2.

Local Ltac run :=
  unfold health, get_db_connection, try_except, bind, ret, lift, globals,
    datetime_now, Db.connect, Db.cursor, Db.execute, Db.fetchone,
    Db.cursor_close, Db.close, Db.record.

(** What an invocation asks of the driver first: the connection attempt,
    then, on the new connection, a cursor and the statement. *)
Lemma health_first_events (w : world) (s : state) :
  (forall e, connect_fails w e ->
     new_events s (snd (health w s)) = [EvConnectFailed]) /\
  (connects w ->
     next_id (snd (health w s)) = S (next_id s) /\
     exists evs,
       new_events s (snd (health w s))
         = EvConnect (next_id s) :: EvCursor (next_id s) :: evs /\
       (on_cursor (w_db w) = None ->
        exists evs', evs = EvExecute (next_id s) "SELECT version();" :: evs')).
Proof.
  unfold connect_fails, connects. run.
  destruct (on_connect (w_db w) _ _ _ _) as [e|].
  { split; [| discriminate]. intros e' _. cbn [snd]. apply new_events_app. }
  split; [discriminate |]. intros _.
  destruct (on_cursor (w_db w)) as [e|].
  { cbn [snd fst next_id log]. rewrite <- !app_assoc.
    split; [reflexivity |]. eexists. split; [apply new_events_app |].
    discriminate. }
  destruct (on_execute (w_db w) _) as [e|].
  { cbn [snd fst next_id log]. rewrite <- !app_assoc.
    split; [reflexivity |]. eexists. split; [apply new_events_app |].
    intros _. eexists. reflexivity. }
  destruct (on_fetchone (w_db w)) as [[[|[|v] rest]|]|e];
    cbn [snd fst next_id log Py.getitem0 Py.split_val];
    rewrite <- !app_assoc;
    (split; [reflexivity |]; eexists; split; [apply new_events_app |];
     intros _; eexists; reflexivity).
Qed.

(** The status of an answer is decided by what the server did during the
    invocation. *)
Lemma health_status_decided (w : world) (s : state) (r : view_rv) :
  fst (health w s) = Py.Returned r ->
  (status_code r = 503 <-> exists e, connect_fails w e) /\
  (status_code r = 200 <-> connects w /\ exists v, query_returns w v).
Proof.
  intros Hrun. pose proof (health_classify w s) as Hcl.
  rewrite Hrun in Hcl.
  assert (Hexcl : forall e, connect_fails w e -> connects w -> False).
  { unfold connect_fails, connects. intros e H1 H2. congruence. }
  destruct Hcl as [[e [Hf Hr]] | [[Hc [v [Hq Hr]]] | [Hc [Hnq [e Hr]]]]];
    injection Hr as ->.
  - split; [split; [intros _; exists e; exact Hf | reflexivity] |].
    split; [discriminate | intros [Hc _]; destruct (Hexcl e Hf Hc)].
  - split; [split; [discriminate | intros [e He]; destruct (Hexcl e He Hc)] |].
    split; [intros _; split; [exact Hc | exists v; exact Hq] | reflexivity].
  - split; [split; [discriminate | intros [e' He]; destruct (Hexcl e' He Hc)] |].
    split; [discriminate | intros [_ [v Hq]]; destruct (Hnq v Hq)].
Qed.

(** C8. Two invocations of [/health] in a row, against a database that
    answers both in the same way, at any two clock readings. Each makes
    its own connection attempt: when the server accepts connections, each
    invocation starts by opening a connection on a handle that occurs
    nowhere in the state it started from (the second on the handle after
    the first), asks for a cursor on it and, when it gets one, executes the
    statement on it again; when the server refuses, each makes its own
    failed attempt. Every further driver call is on the invocation's own
    handle. Each answer is decided by what the server did during that
    invocation (503 exactly when the attempt fails, 200 exactly when the
    query returns a text); the two answers have the same status code and
    the same body apart from the timestamp; and the second answer is the
    same from any driver state, so nothing left by earlier invocations is
    read. *)
Theorem health_invocations_independent
        (cfg : Config.t) (db : server) (rt : runtime)
        (now1 now2 : Py.datetime) (s0 : state) :
  state_wf s0 ->
  exists r1 s1 r2 s2,
    health (World cfg db now1 rt) s0 = (Py.Returned r1, s1) /\
    health (World cfg db now2 rt) s1 = (Py.Returned r2, s2) /\
    own_connection s0 s1 /\
    own_connection s1 s2 /\
    (connects (World cfg db now1 rt) ->
       next_id s1 = S (next_id s0) /\
       exists evs1 evs2,
         new_events s0 s1
           = EvConnect (next_id s0) :: EvCursor (next_id s0) :: evs1 /\
         new_events s1 s2
           = EvConnect (next_id s1) :: EvCursor (next_id s1) :: evs2 /\
         (on_cursor db = None ->
          In (EvExecute (next_id s0) "SELECT version();") (new_events s0 s1) /\
          In (EvExecute (next_id s1) "SELECT version();") (new_events s1 s2))) /\
    ((exists e, connect_fails (World cfg db now1 rt) e) ->
       new_events s0 s1 = [EvConnectFailed] /\
       new_events s1 s2 = [EvConnectFailed]) /\
    (status_code r1 = 503 <-> exists e, connect_fails (World cfg db now1 rt) e) /\
    (status_code r1 = 200 <->
       connects (World cfg db now1 rt) /\
       exists v, query_returns (World cfg db now1 rt) v) /\
    (status_code r2 = 503 <-> exists e, connect_fails (World cfg db now2 rt) e) /\
    (status_code r2 = 200 <->
       connects (World cfg db now2 rt) /\
       exists v, query_returns (World cfg db now2 rt) v) /\
    status_code r1 = status_code r2 /\
    untimed r1 = untimed r2 /\
    (forall s, fst (health (World cfg db now2 rt) s) = Py.Returned r2).
Proof.
  intros Hwf.
  destruct (health_returns (World cfg db now1 rt) s0) as (r1 & s1 & Hrun1 & _).
  destruct (health_returns (World cfg db now2 rt) s1) as (r2 & s2 & Hrun2 & _).
  exists r1, s1, r2, s2.
  split; [exact Hrun1 |]. split; [exact Hrun2 |].
  pose proof (health_own_connection (World cfg db now1 rt) s0 Hwf) as [Ho1 Hwf1].
  rewrite Hrun1 in Ho1, Hwf1. simpl in Ho1, Hwf1.
  pose proof (health_own_connection (World cfg db now2 rt) s1 Hwf1) as [Ho2 _].
  rewrite Hrun2 in Ho2. simpl in Ho2.
  split; [exact Ho1 |]. split; [exact Ho2 |].
  pose proof (health_first_events (World cfg db now1 rt) s0) as [Hf1 Hc1].
  pose proof (health_first_events (World cfg db now2 rt) s1) as [Hf2 Hc2].
  rewrite Hrun1 in Hf1, Hc1. rewrite Hrun2 in Hf2, Hc2.
  cbn [snd w_db] in Hf1, Hc1, Hf2, Hc2.
  split.
  { intros Hc.
    destruct (Hc1 Hc) as (Hn1 & evs1 & He1 & Hx1).
    destruct (Hc2 Hc) as (Hn2 & evs2 & He2 & Hx2).
    split; [exact Hn1 |]. exists evs1, evs2.
    split; [exact He1 |]. split; [exact He2 |].
    intros Hcur.
    destruct (Hx1 Hcur) as [evs1' ->]. destruct (Hx2 Hcur) as [evs2' ->].
    rewrite He1, He2. split; right; right; left; reflexivity. }
  split.
  { intros [e He]. split; [apply (Hf1 e He) | apply (Hf2 e He)]. }
  assert (Hr1 : fst (health (World cfg db now1 rt) s0) = Py.Returned r1)
    by (rewrite Hrun1; reflexivity).
  assert (Hr2 : fst (health (World cfg db now2 rt) s1) = Py.Returned r2)
    by (rewrite Hrun2; reflexivity).
  destruct (health_status_decided _ _ _ Hr1) as [T1 T2].
  destruct (health_status_decided _ _ _ Hr2) as [T3 T4].
  split; [exact T1 |]. split; [exact T2 |].
  split; [exact T3 |]. split; [exact T4 |].
  assert (Hany : forall s, fst (health (World cfg db now2 rt) s) = Py.Returned r2).
  { intros s. rewrite (health_result_state_independent _ s s1), Hrun2.
    reflexivity. }
  destruct (health_result_clock cfg db rt now1 now2 s0)
    as (r1' & r2' & H1 & H2 & Hst & Hun).
  rewrite Hrun1 in H1. simpl in H1. injection H1 as <-.
  rewrite Hany in H2. injection H2 as <-.
  repeat split; assumption.
Qed.

Lemma health_invocations_independent_witness :
  state_wf initial_state /\
  exists r1 s1 r2 s2,
    health (sample_world (server_rejecting permission_denied)) initial_state
      = (Py.Returned r1, s1) /\
    health (World (Config.load ∅) (server_rejecting permission_denied)
                  (Py.Datetime 2024 5 17 9 3 8 250000) sample_runtime) s1
      = (Py.Returned r2, s2) /\
    own_connection initial_state s1 /\
    own_connection s1 s2 /\
    untimed r1 = untimed r2.
Proof.
  assert (Hwf : state_wf initial_state).
  { intros c [Hc | [ev [[] _]]]. apply not_elem_of_empty in Hc. destruct Hc. }
  split; [exact Hwf |].
  destruct (health_invocations_independent
              (Config.load ∅) (server_rejecting permission_denied)
              sample_runtime sample_now
              (Py.Datetime 2024 5 17 9 3 8 250000) initial_state Hwf)
    as (r1 & s1 & r2 & s2 & H1 & H2 & Ho1 & Ho2 & _ & _ & _ & _ & _ & _
        & _ & Hun & _).
  exists r1, s1, r2, s2. repeat split; assumption.
Defined.

End Invocations.
